(** * Import Disto CSV to Mesh: the importer of [src/__init__.py]

    A shallow embedding of the Blender add-on's [ImportCSVAsMesh.execute]
    and [create_text_label], together with the parts of the Python runtime
    they call ([str.strip], [float], [csv.reader], [csv.DictReader],
    [enumerate]) and a small model of the host scene the operator writes to.

    Conventions.
    - A Python [str] is a [string]; a character is an [ascii], read as the
      code point of that number (0..255).
    - A Python [float] is a binary64 value, [spec_float] at precision 53 and
      maximal exponent 1024, with the operations of [SpecFloat].
    - A Python [int] used as a counter is a [nat].
    - The file system is a function from paths to what [open] and the
      iteration over the file object deliver: the lines, and the exception
      that ends the iteration when there is one.
    - [print] writes to the console and is assumed to succeed; the console is
      not part of the model. *)

From Stdlib Require Import ZArith String Ascii List Sorted DecimalString.
From Stdlib Require Import Floats.SpecFloat.
From stdpp Require Import base option list gmap strings.

Local Open Scope string_scope.

(** ** Exceptions *)

(** The exception classes that can reach the two handlers of [execute].
    Each carries the text [str(e)] renders. *)
Inductive exn : Type :=
  | OSError (msg : string)
  | UnicodeDecodeError (msg : string)
  | csv_Error (msg : string)
  | ValueError (msg : string)
  | AttributeError (msg : string).

(** [str(e)], as interpolated by [f"...{e}"]. *)
Definition str_exn (e : exn) : string :=
  match e with
  | OSError m | UnicodeDecodeError m | csv_Error m
  | ValueError m | AttributeError m => m
  end.

(** [isinstance(e, (ValueError, KeyError, TypeError))]: [UnicodeDecodeError]
    is a subclass of [ValueError]; there is no [KeyError] or [TypeError]
    among the modelled classes. *)
Definition is_ValueError_KeyError_TypeError (e : exn) : bool :=
  match e with
  | ValueError _ | UnicodeDecodeError _ => true
  | OSError _ | csv_Error _ | AttributeError _ => false
  end.

Inductive result (A : Type) : Type :=
  | Ok (a : A)
  | Raise (e : exn).
Arguments Ok {A} a.
Arguments Raise {A} e.

(** ** Python builtins *)

Module builtins.

Definition float : Type := spec_float.

Definition prec : Z := 53.
Definition emax : Z := 1024.

(** Binary64 addition, the [+] of two Python floats. *)
Definition float_add (x y : float) : float := SFadd prec emax x y.

(** [math.isfinite]. *)
Definition isfinite (x : float) : bool :=
  match x with
  | S754_zero _ | S754_finite _ _ _ => true
  | S754_infinity _ | S754_nan => false
  end.

(** [str(n)] for a non-negative [int]. *)
Definition str_int (n : nat) : string :=
  NilEmpty.string_of_uint (Nat.to_uint n).

(** *** [str.isspace] on one character and [str.strip()] *)

(** The code points below 256 that Python's [str.strip()] removes:
    TAB, LF, VT, FF, CR, the separators FS, GS, RS, US, SPACE, NEL and
    NO-BREAK SPACE. *)
Definition isspace (c : ascii) : bool :=
  let n := N_of_ascii c in
  ((9 <=? n) && (n <=? 13) || (28 <=? n) && (n <=? 32)
   || (n =? 133) || (n =? 160))%N.

Fixpoint lstrip (s : string) : string :=
  match s with
  | EmptyString => EmptyString
  | String c s' => if isspace c then lstrip s' else s
  end.

Fixpoint rstrip (s : string) : string :=
  match s with
  | EmptyString => EmptyString
  | String c s' =>
      match rstrip s' with
      | EmptyString => if isspace c then EmptyString else String c EmptyString
      | r => String c r
      end
  end.

Definition strip (s : string) : string := rstrip (lstrip s).

(** *** [float(s)] for a [str] argument

    CPython's [PyFloat_FromString]:
    + [_PyUnicode_TransformDecimalAndSpaceToASCII]: an all-ASCII string is
      kept; otherwise code points below 127 are kept, white space becomes
      a blank, and the first other character becomes ['?'] and ends the
      string (no code point below 256 is a decimal digit other than 0-9);
    + [_Py_string_to_number_with_underscores]: an underscore is accepted
      between two digits only, and removed;
    + [float_from_string_inner]: ASCII white space is removed at both
      ends, and the rest must be, whole, a decimal literal
      [sign? (digits [. digits?] | . digits) ([eE] sign? digits)?]
      or [sign? (inf | infinity | nan)] in any letter case;
    + the literal is rounded to the nearest binary64 value, ties to even;
      overflow gives an infinity and underflow a zero or a subnormal,
      without an exception. *)

Definition is_ascii (c : ascii) : bool := (N_of_ascii c <? 128)%N.

Fixpoint transform_decimal_and_space (cs : list ascii) : list ascii :=
  match cs with
  | [] => []
  | c :: cs' =>
      if (N_of_ascii c <? 127)%N then c :: transform_decimal_and_space cs'
      else if isspace c then " "%char :: transform_decimal_and_space cs'
      else ["?"%char]
  end.

Definition to_ascii_buffer (cs : list ascii) : list ascii :=
  if forallb is_ascii cs then cs else transform_decimal_and_space cs.

Definition is_digit (c : ascii) : bool :=
  let n := N_of_ascii c in ((48 <=? n) && (n <=? 57))%N.

Definition digit_value (c : ascii) : Z := Z.of_N (N_of_ascii c) - 48.

Definition is_underscore (c : ascii) : bool := (N_of_ascii c =? 95)%N.

(** The loop of [_Py_string_to_number_with_underscores]; [prev] is the
    previous character, [None] before the first one. *)
Fixpoint remove_underscores (prev : option ascii) (cs : list ascii)
  : option (list ascii) :=
  match cs with
  | [] =>
      match prev with
      | Some p => if is_underscore p then None else Some []
      | None => Some []
      end
  | c :: cs' =>
      if is_underscore c then
        match prev with
        | Some p => if is_digit p then remove_underscores (Some c) cs'
                    else None
        | None => None
        end
      else
        let bad :=
          match prev with
          | Some p => is_underscore p && negb (is_digit c)
          | None => false
          end in
        if bad then None
        else option_map (cons c) (remove_underscores (Some c) cs')
  end.

(** [Py_ISSPACE]: the white space of the C locale. *)
Definition c_isspace (c : ascii) : bool :=
  let n := N_of_ascii c in ((9 <=? n) && (n <=? 13) || (n =? 32))%N.

Fixpoint c_lstrip (cs : list ascii) : list ascii :=
  match cs with
  | [] => []
  | c :: cs' => if c_isspace c then c_lstrip cs' else cs
  end.

Definition c_strip (cs : list ascii) : list ascii :=
  rev (c_lstrip (rev (c_lstrip cs))).

Definition take_sign (cs : list ascii) : bool * list ascii :=
  match cs with
  | "-"%char :: t => (true, t)
  | "+"%char :: t => (false, t)
  | _ => (false, cs)
  end.

Fixpoint span_digits (cs : list ascii) : list ascii * list ascii :=
  match cs with
  | c :: t =>
      if is_digit c then
        let '(ds, r) := span_digits t in (c :: ds, r)
      else ([], cs)
  | [] => ([], [])
  end.

Definition digits_value (ds : list ascii) : Z :=
  fold_left (fun acc d => 10 * acc + digit_value d)%Z ds 0%Z.

Definition tolower (c : ascii) : ascii :=
  let n := N_of_ascii c in
  if ((65 <=? n) && (n <=? 90))%N then ascii_of_N (n + 32) else c.

(** A parsed literal: its sign and either a special value or the decimal
    [mantissa * 10 ^ exponent]. *)
Inductive literal : Type :=
  | LitInf
  | LitNan
  | LitDec (mantissa : Z) (exponent : Z).

(** [_Py_parse_inf_or_nan], on the text after the sign. *)
Definition parse_inf_or_nan (cs : list ascii) : option literal :=
  let low := string_of_list_ascii (map tolower cs) in
  if (low =? "inf") || (low =? "infinity") then Some LitInf
  else if low =? "nan" then Some LitNan
  else None.

(** The grammar of [_Py_dg_strtod], on the text after the sign. *)
Definition parse_decimal (cs : list ascii) : option literal :=
  let '(ip, r1) := span_digits cs in
  let '(fp, r2) :=
    match r1 with
    | "."%char :: t => span_digits t
    | _ => ([], r1)
    end in
  match (ip ++ fp)%list with
  | [] => None
  | ds =>
      let m := digits_value ds in
      let frac := Z.of_nat (length fp) in
      match r2 with
      | [] => Some (LitDec m (- frac))
      | c :: t =>
          if ascii_dec (tolower c) "e"%char then
            let '(eneg, t1) := take_sign t in
            let '(ed, t2) := span_digits t1 in
            match ed, t2 with
            | _ :: _, [] =>
                let e := digits_value ed in
                Some (LitDec m ((if eneg then - e else e) - frac))
            | _, _ => None
            end
          else None
      end
  end%Z.

Definition parse_literal (cs : list ascii) : option (bool * literal) :=
  let '(neg, body) := take_sign cs in
  match parse_decimal body with
  | Some l => Some (neg, l)
  | None =>
      match parse_inf_or_nan body with
      | Some l => Some (neg, l)
      | None => None
      end
  end.

(** Correct rounding of [(-1)^neg * m * 10 ^ e] to binary64. *)
Definition round_decimal (neg : bool) (m e : Z) : float :=
  match m with
  | Z0 => S754_zero neg
  | Zneg _ => S754_nan
  | Zpos p =>
      match e with
      | Zneg k =>
          let '(q, e', l) :=
            SFdiv_core_binary prec emax (Zpos p) 0 (10 ^ Zpos k) 0 in
          binary_round_aux prec emax neg q e' l
      | _ => binary_round prec emax neg (Z.to_pos (Zpos p * 10 ^ e)) 0
      end
  end%Z.

Definition literal_value (neg : bool) (l : literal) : float :=
  match l with
  | LitInf => S754_infinity neg
  | LitNan => S754_nan
  | LitDec m e => round_decimal neg m e
  end.

(** The [ValueError] of a rejected string (Python quotes the string in
    the message with [repr]; the text is kept as it is here). *)
Definition could_not_convert (s : string) : exn :=
  ValueError ("could not convert string to float: " +:+ s).

(** [float(s)]. *)
Definition float_of_str (s : string) : result float :=
  let buf := to_ascii_buffer (list_ascii_of_string s) in
  let cleaned :=
    if existsb is_underscore buf then remove_underscores None buf
    else Some buf in
  match cleaned with
  | None => Raise (could_not_convert s)
  | Some cs =>
      match parse_literal (c_strip cs) with
      | Some (neg, l) => Ok (literal_value neg l)
      | None => Raise (could_not_convert s)
      end
  end.

End builtins.

(** ** The [csv] module *)

Module csv.

(** The states of the reader's automaton ([_csv.c]).  The [excel] dialect
    has no escape character, so the three escape states are never
    entered and are left out. *)
Inductive ParserState : Type :=
  | START_RECORD
  | START_FIELD
  | IN_FIELD
  | IN_QUOTED_FIELD
  | QUOTE_IN_QUOTED_FIELD
  | EAT_CRNL.

Definition ParserState_eqb (a b : ParserState) : bool :=
  match a, b with
  | START_RECORD, START_RECORD | START_FIELD, START_FIELD
  | IN_FIELD, IN_FIELD | IN_QUOTED_FIELD, IN_QUOTED_FIELD
  | QUOTE_IN_QUOTED_FIELD, QUOTE_IN_QUOTED_FIELD | EAT_CRNL, EAT_CRNL => true
  | _, _ => false
  end.

(** [ReaderObj]: the fields of the record being built, the buffer of the
    field being read (last character first) with its length, the state
    and the count of lines consumed. *)
Record ReaderObj : Type := {
  fields : list string;
  field : list ascii;
  field_len : N;
  state : ParserState;
  line_num : nat
}.

(** [csv.field_size_limit()], at its default. *)
Definition field_limit : N := 131072.

(** The dialect [excel]: the comma as delimiter, the double quote (code
    34) as quote character, doubled to stand for itself, no escape
    character, no skipping of initial blanks, not strict,
    [QUOTE_MINIMAL]. *)
Definition delimiter : ascii := ","%char.
Definition quotechar : ascii := ascii_of_N 34.
Definition LF : ascii := ascii_of_N 10.
Definition CR : ascii := ascii_of_N 13.

Definition is_newline (c : ascii) : bool :=
  if ascii_dec c LF then true else if ascii_dec c CR then true else false.

Definition new_reader : ReaderObj :=
  {| fields := []; field := []; field_len := 0;
     state := START_RECORD; line_num := 0 |}.

Definition parse_reset (r : ReaderObj) : ReaderObj :=
  {| fields := []; field := []; field_len := 0;
     state := START_RECORD; line_num := line_num r |}.

Definition set_state (s : ParserState) (r : ReaderObj) : ReaderObj :=
  {| fields := fields r; field := field r; field_len := field_len r;
     state := s; line_num := line_num r |}.

Definition parse_save_field (r : ReaderObj) : ReaderObj :=
  {| fields := fields r ++ [string_of_list_ascii (rev (field r))];
     field := []; field_len := 0;
     state := state r; line_num := line_num r |}.

Definition parse_add_char (r : ReaderObj) (c : ascii) : result ReaderObj :=
  if (field_limit <=? field_len r)%N then
    Raise (csv_Error "field larger than field limit (131072)")
  else
    Ok {| fields := fields r; field := c :: field r;
          field_len := field_len r + 1;
          state := state r; line_num := line_num r |}.

Definition add_char_then (s : ParserState) (r : ReaderObj) (c : ascii)
  : result ReaderObj :=
  match parse_add_char r c with
  | Ok r' => Ok (set_state s r')
  | Raise e => Raise e
  end.

(** [parse_process_char]; the character [None] is the end-of-line mark
    [EOL] that follows the characters of every line. *)
Definition parse_process_char (r : ReaderObj) (c : option ascii)
  : result ReaderObj :=
  let start_field (r : ReaderObj) :=
    match c with
    | None => Ok (set_state START_RECORD (parse_save_field r))
    | Some ch =>
        if is_newline ch then Ok (set_state EAT_CRNL (parse_save_field r))
        else if ascii_dec ch quotechar then Ok (set_state IN_QUOTED_FIELD r)
        else if ascii_dec ch delimiter then
          Ok (set_state START_FIELD (parse_save_field r))
        else add_char_then IN_FIELD r ch
    end in
  match state r with
  | START_RECORD =>
      match c with
      | None => Ok r
      | Some ch =>
          if is_newline ch then Ok (set_state EAT_CRNL r)
          else start_field r
      end
  | START_FIELD => start_field r
  | IN_FIELD =>
      match c with
      | None => Ok (set_state START_RECORD (parse_save_field r))
      | Some ch =>
          if is_newline ch then Ok (set_state EAT_CRNL (parse_save_field r))
          else if ascii_dec ch delimiter then
            Ok (set_state START_FIELD (parse_save_field r))
          else add_char_then IN_FIELD r ch
      end
  | IN_QUOTED_FIELD =>
      match c with
      | None => Ok r
      | Some ch =>
          if ascii_dec ch quotechar then Ok (set_state QUOTE_IN_QUOTED_FIELD r)
          else add_char_then IN_QUOTED_FIELD r ch
      end
  | QUOTE_IN_QUOTED_FIELD =>
      match c with
      | None => Ok (set_state START_RECORD (parse_save_field r))
      | Some ch =>
          if ascii_dec ch quotechar then add_char_then IN_QUOTED_FIELD r ch
          else if ascii_dec ch delimiter then
            Ok (set_state START_FIELD (parse_save_field r))
          else if is_newline ch then
            Ok (set_state EAT_CRNL (parse_save_field r))
          else add_char_then IN_FIELD r ch
      end
  | EAT_CRNL =>
      match c with
      | None => Ok (set_state START_RECORD r)
      | Some ch =>
          if is_newline ch then Ok r
          else Raise (csv_Error
            "new-line character seen in unquoted field - do you need to open the file with newline=''?")
      end
  end.

Fixpoint process_chars (r : ReaderObj) (cs : list ascii) : result ReaderObj :=
  match cs with
  | [] => Ok r
  | c :: cs' =>
      match parse_process_char r (Some c) with
      | Ok r' => process_chars r' cs'
      | Raise e => Raise e
      end
  end.

(** One turn of the loop of [Reader_iternext]: count the line, feed its
    characters, then [EOL]. *)
Definition process_line (r : ReaderObj) (line : string) : result ReaderObj :=
  let r1 := {| fields := fields r; field := field r;
               field_len := field_len r; state := state r;
               line_num := S (line_num r) |} in
  match process_chars r1 (list_ascii_of_string line) with
  | Ok r2 => parse_process_char r2 None
  | Raise e => Raise e
  end.

(** What iterating an object yields: the items, then the exception that
    ends the iteration, if one does. *)
Definition stream (A : Type) : Type := (list A * option exn)%type.

Definition stream_cons {A} (a : A) (s : stream A) : stream A :=
  (a :: fst s, snd s).

(** A record as the reader returns it, with [reader.line_num] at that
    moment. *)
Definition record : Type := (nat * list string)%type.

(** The records [csv.reader(lines)] yields.  [r] is the reader in the
    middle of [Reader_iternext]; [input_end] is the exception the line
    iterator raises after its last line, if any. *)
Fixpoint reader_from (r : ReaderObj) (lines : list string)
    (input_end : option exn) : stream record :=
  match lines with
  | [] =>
      match input_end with
      | Some e => ([], Some e)
      | None =>
          if negb (field_len r =? 0)%N
             || ParserState_eqb (state r) IN_QUOTED_FIELD
          then ([(line_num r, fields (parse_save_field r))], None)
          else ([], None)
      end
  | line :: rest =>
      match process_line r line with
      | Raise e => ([], Some e)
      | Ok r' =>
          if ParserState_eqb (state r') START_RECORD
          then stream_cons (line_num r', fields r')
                 (reader_from (parse_reset r') rest input_end)
          else reader_from r' rest input_end
      end
  end.

Definition reader (lines : list string) (input_end : option exn)
  : stream record :=
  reader_from new_reader lines input_end.

(** *** [csv.DictReader] *)

(** The values a row holds: a field, [None] ([restval]) for a column the
    record is too short for, and under the key [None] ([restkey]) the list
    of the fields beyond the header. *)
Inductive value : Type :=
  | Str (s : string)
  | NoneVal
  | StrList (l : list string).

(** A row: a [dict] whose keys are the header's names ([Some name]) and
    [None]. *)
Abbreviation dict := (gmap (option string) value).

(** [dict(zip(fieldnames, row))]: a later pair replaces an earlier one
    with the same key. *)
Definition dict_of_zip (fieldnames row : list string) : dict :=
  foldl (fun d kv => <[Some (fst kv) := Str (snd kv)]> d) ∅
        (zip fieldnames row).

(** The body of [DictReader.__next__] after a non-empty record was read. *)
Definition make_row (fieldnames row : list string) : dict :=
  let d := dict_of_zip fieldnames row in
  let lf := length fieldnames in
  let lr := length row in
  if (lf <? lr)%nat then <[None := StrList (drop lf row)]> d
  else if (lr <? lf)%nat then
    foldl (fun d key => <[Some key := NoneVal]> d) d (drop lr fieldnames)
  else d.

Definition is_blank_record (rec : record) : bool :=
  match snd rec with [] => true | _ :: _ => false end.

(** The rows [DictReader(lines)] yields, each with [line_num] of the
    underlying reader: the first record is the header, empty records are
    passed over. *)
Definition DictReader_rows (recs : list record) : list (nat * dict) :=
  match recs with
  | [] => []
  | fieldnames :: rest =>
      map (fun rec => (fst rec, make_row (snd fieldnames) (snd rec)))
          (filter (fun rec => is_blank_record rec = false) rest)
  end.

Definition DictReader (lines : list string) (input_end : option exn)
  : stream (nat * dict) :=
  let s := reader lines input_end in
  (DictReader_rows (fst s), snd s).

(** [row.get(key)] for a [str] key. *)
Definition get (row : dict) (key : string) : value :=
  match row !! Some key with
  | Some v => v
  | None => NoneVal
  end.

End csv.

(** ** The host: the objects of the active collection and the reports *)

Module bpy.

(** A vertex, a location or a scale: three floats. *)
Definition Vector : Type := (builtins.float * builtins.float * builtins.float)%type.

(** The data block of an object: a mesh ([bpy.data.meshes.new] followed by
    [from_pydata]) or a text curve ([bpy.data.curves.new(type="FONT")]). *)
Inductive ID : Type :=
  | Mesh (name : string) (vertices : list Vector)
         (edges : list (nat * nat)) (faces : list (list nat))
  | TextCurve (name : string) (body : string) (align_x : string).

(** An object, with the attributes the add-on writes.  Names are the
    names asked for (the host may add a suffix to keep them unique). *)
Record Object : Type := {
  name : string;
  data : ID;
  rotation_euler_0 : builtins.float;
  location : Vector;
  scale : Vector
}.

Definition zero : builtins.float := S754_zero false.
Definition one : builtins.float := S754_finite false 4503599627370496 (-52).

(** [bpy.data.objects.new(name, object_data)]: at the origin, not
    rotated, of scale one. *)
Definition objects_new (name : string) (object_data : ID) : Object :=
  {| name := name; data := object_data; rotation_euler_0 := zero;
     location := (zero, zero, zero); scale := (one, one, one) |}.

(** [bpy.data.curves.new(type="FONT", name=name)]: the host's defaults
    for a new text. *)
Definition curves_new_FONT (name : string) : ID :=
  TextCurve name "Text" "LEFT".

Inductive ReportType : Type := ERROR | INFO.

Inductive Status : Type := FINISHED | CANCELLED.

(** What the operator can change: the objects linked to
    [context.collection], in the order of linking, and the reports made
    with [self.report]. *)
Record Host : Type := {
  collection_objects : list Object;
  reports : list (ReportType * string)
}.

Definition link (ob : Object) (h : Host) : Host :=
  {| collection_objects := collection_objects h ++ [ob];
     reports := reports h |}.

Definition report (t : ReportType) (msg : string) (h : Host) : Host :=
  {| collection_objects := collection_objects h;
     reports := reports h ++ [(t, msg)] |}.

End bpy.

(** ** The add-on *)

(** The float literal [1.5708]. *)
Definition lit_1_5708 : builtins.float :=
  Eval vm_compute in builtins.round_decimal false 15708 (-4).

(** [create_text_label(text, location, size, vertical, align, offset_z,
    collection)]: the host after the label is linked. *)
Definition create_text_label (text : string) (location : bpy.Vector)
    (size : builtins.float) (vertical : bool) (align : string)
    (offset_z : builtins.float) (collection : bpy.Host) : bpy.Host :=
  let font_curve := bpy.curves_new_FONT ("Label_" +:+ text) in
  let font_obj := bpy.objects_new ("Label_" +:+ text) font_curve in
  (* font_obj.data.body = text *)
  let data1 :=
    match bpy.data font_obj with
    | bpy.TextCurve n _ a => bpy.TextCurve n text a
    | d => d
    end in
  (* if align == 'CENTER': ... elif 'LEFT': ... elif 'RIGHT': ... *)
  let set_align (a : string) (d : bpy.ID) :=
    match d with
    | bpy.TextCurve n b _ => bpy.TextCurve n b a
    | d => d
    end in
  let data2 :=
    if String.eqb align "CENTER" then set_align "CENTER" data1
    else if String.eqb align "LEFT" then set_align "LEFT" data1
    else if String.eqb align "RIGHT" then set_align "RIGHT" data1
    else data1 in
  let '(l0, l1, l2) := location in
  let font_obj' :=
    {| bpy.name := bpy.name font_obj;
       bpy.data := data2;
       bpy.rotation_euler_0 := if vertical then lit_1_5708 else bpy.zero;
       bpy.location := (l0, l1, builtins.float_add l2 offset_z);
       bpy.scale := (size, size, size) |} in
  bpy.link font_obj' collection.

Inductive Orientation : Type := HORIZONTAL | VERTICAL.
Inductive Alignment : Type := CENTER | LEFT | RIGHT.

(** The identifier of an enum item, the value the property reads as. *)
Definition orientation_id (o : Orientation) : string :=
  match o with HORIZONTAL => "HORIZONTAL" | VERTICAL => "VERTICAL" end.

Definition alignment_id (a : Alignment) : string :=
  match a with CENTER => "CENTER" | LEFT => "LEFT" | RIGHT => "RIGHT" end.

(** The operator's properties, with [filepath] of [ImportHelper]. *)
Record ImportCSVAsMesh : Type := {
  filepath : string;
  show_labels : bool;
  label_size : builtins.float;
  label_orientation : Orientation;
  label_alignment : Alignment;
  label_offset_z : builtins.float;
  x_column_name : string;
  y_column_name : string;
  z_column_name : string
}.

(** What [open(path, newline='')] and the iteration over the file give:
    [open] raises, or the file yields its lines and then ends, normally or
    with an exception (a read or decoding error). *)
Inductive file : Type :=
  | open_raises (e : exn)
  | opened (lines : list string) (input_end : option exn).

Definition filesystem : Type := string -> file.

(** The two lists [execute] fills. *)
Record locals : Type := {
  verts : list bpy.Vector;
  skipped_lines : list nat
}.

(** Statements that read and write the two lists and may raise. *)
Definition M (A : Type) : Type := locals -> result A * locals.

Definition ret {A} (a : A) : M A := fun st => (Ok a, st).

Definition bind {A B} (m : M A) (k : A -> M B) : M B :=
  fun st =>
    match m st with
    | (Ok a, st') => k a st'
    | (Raise e, st') => (Raise e, st')
    end.

Definition raise {A} (e : exn) : M A := fun st => (Raise e, st).

Definition lift {A} (r : result A) : M A := fun st => (r, st).

Notation "x <- m ;; k" := (bind m (fun x => k))
  (at level 100, m at next level, right associativity).
Notation "m ;;; k" := (bind m (fun _ => k))
  (at level 100, right associativity).

(** [try: body except (ValueError, KeyError, TypeError) as e: handler]. *)
Definition try_except (body : M unit) (handler : exn -> M unit) : M unit :=
  fun st =>
    match body st with
    | (Ok tt, st') => (Ok tt, st')
    | (Raise e, st') =>
        if is_ValueError_KeyError_TypeError e then handler e st'
        else (Raise e, st')
    end.

Definition verts_append (v : bpy.Vector) : M unit :=
  fun st => (Ok tt, {| verts := verts st ++ [v];
                       skipped_lines := skipped_lines st |}).

Definition skipped_lines_append (n : nat) : M unit :=
  fun st => (Ok tt, {| verts := verts st;
                       skipped_lines := skipped_lines st ++ [n] |}).

Definition is_None (v : csv.value) : bool :=
  match v with csv.NoneVal => true | _ => false end.

(** [v.strip()]: only a [str] has the method. *)
Definition value_strip (v : csv.value) : M string :=
  match v with
  | csv.Str s => ret (builtins.strip s)
  | csv.NoneVal => raise (AttributeError "'NoneType' object has no attribute 'strip'")
  | csv.StrList _ => raise (AttributeError "'list' object has no attribute 'strip'")
  end.

(** [a or b], with [b] evaluated only when [a] is false. *)
Definition or_else (a b : M bool) : M bool :=
  x <- a ;; if x then ret true else b.

Definition strip_is_empty (v : csv.value) : M bool :=
  s <- value_strip v ;; ret (String.eqb s "").

(** The condition of line 90. *)
Definition missing_coordinate (x_val y_val z_val : csv.value) : M bool :=
  or_else (ret (is_None x_val))
  (or_else (ret (is_None y_val))
  (or_else (ret (is_None z_val))
  (or_else (strip_is_empty x_val)
  (or_else (strip_is_empty y_val)
           (strip_is_empty z_val))))).

(** [float(v.strip())]. *)
Definition float_strip (v : csv.value) : M builtins.float :=
  s <- value_strip v ;; lift (builtins.float_of_str s).

(** The body of the loop, lines 86 to 101. *)
Definition loop_body (self : ImportCSVAsMesh) (line_num : nat)
    (row : csv.dict) : M unit :=
  try_except
    (let x_val := csv.get row (x_column_name self) in
     let y_val := csv.get row (y_column_name self) in
     let z_val := csv.get row (z_column_name self) in
     missing <- missing_coordinate x_val y_val z_val ;;
     if missing then
       skipped_lines_append line_num   (* print(...); continue *)
     else
       x <- float_strip x_val ;;
       y <- float_strip y_val ;;
       z <- float_strip z_val ;;
       verts_append (x, y, z))
    (fun e => skipped_lines_append line_num).  (* print(...); continue *)

(** [enumerate(items, start)]. *)
Fixpoint enumerate {A} (items : list A) (start : nat) : list (nat * A) :=
  match items with
  | [] => []
  | a :: rest => (start, a) :: enumerate rest (S start)
  end.

(** [for item in items: body(item)]. *)
Fixpoint for_in {A} (items : list A) (body : A -> M unit) : M unit :=
  match items with
  | [] => ret tt
  | a :: rest => body a ;;; for_in rest body
  end.

(** Lines 80 and 81. *)
Definition initial : locals := {| verts := []; skipped_lines := [] |}.

(** The outer [try] block, lines 83 to 101: the rows the reader yields are
    processed in turn, then the exception that ended the reading, if any,
    is raised. *)
Definition read_file (self : ImportCSVAsMesh) (fs : filesystem) : M unit :=
  match fs (filepath self) with
  | open_raises e => raise e
  | opened lines input_end =>
      let reader := csv.DictReader lines input_end in
      for_in (enumerate (fst reader) 2)
        (fun it => loop_body self (fst it) (snd (snd it))) ;;;
      match snd reader with
      | Some e => raise e
      | None => ret tt
      end
  end.

(** [repr] of a list of [int]. *)
Definition repr_int_list (l : list nat) : string :=
  "[" +:+ String.concat ", " (map builtins.str_int l) +:+ "]".

(** The loop of lines 121 and 122, [idx] being the index of the first
    vertex of [vs]. *)
Fixpoint create_labels (self : ImportCSVAsMesh) (idx : nat)
    (vs : list bpy.Vector) (h : bpy.Host) : bpy.Host :=
  match vs with
  | [] => h
  | v :: rest =>
      create_labels self (S idx) rest
        (create_text_label (builtins.str_int (idx + 1)) v (label_size self)
           (String.eqb (orientation_id (label_orientation self)) "VERTICAL")
           (alignment_id (label_alignment self)) (label_offset_z self) h)
  end.

(** [ImportCSVAsMesh.execute]: the status returned and the host after. *)
Definition execute (self : ImportCSVAsMesh) (fs : filesystem)
    (context : bpy.Host) : bpy.Status * bpy.Host :=
  match read_file self fs initial with
  | (Raise e, _) =>
      (bpy.CANCELLED,
       bpy.report bpy.ERROR ("Failed to read CSV: " +:+ str_exn e) context)
  | (Ok tt, st) =>
      match verts st with
      | [] =>
          (bpy.CANCELLED,
           bpy.report bpy.ERROR "No valid points found in CSV." context)
      | _ :: _ =>
          let mesh := bpy.Mesh "CSV_Mesh" (verts st) [] [] in
          let obj := bpy.objects_new "CSV_Mesh" mesh in
          let h1 := bpy.link obj context in
          let h2 :=
            if show_labels self then create_labels self 0 (verts st) h1
            else h1 in
          let skipped_info :=
            match skipped_lines st with
            | [] => ""
            | _ :: _ => " Skipped lines: " +:+ repr_int_list (skipped_lines st)
            end in
          let total_lines := length (verts st) + length (skipped_lines st) in
          (bpy.FINISHED,
           bpy.report bpy.INFO
             ("Imported " +:+ builtins.str_int (length (verts st))
              +:+ " points from " +:+ builtins.str_int total_lines
              +:+ " lines." +:+ skipped_info) h2)
      end
  end.

(** ** The specification's reading of a row *)

(** The text a row holds for a column: none when the column is absent from
    the row or its value is missing. *)
Definition column_text (row : csv.dict) (column : string) : option string :=
  match row !! Some column with
  | Some (csv.Str s) => Some s
  | _ => None
  end.

(** A column's value is unusable: absent, missing, or empty once trimmed. *)
Definition absent_missing_or_blank (row : csv.dict) (column : string) : bool :=
  match column_text row column with
  | None => true
  | Some s => String.eqb (builtins.strip s) ""
  end.

(** The trimmed text of a column parsed as a float, when that succeeds. *)
Definition parsed (row : csv.dict) (column : string) : option builtins.float :=
  match column_text row column with
  | Some s =>
      match builtins.float_of_str (builtins.strip s) with
      | Ok x => Some x
      | Raise _ => None
      end
  | None => None
  end.

(** Step 3 of the specification's algorithm: the Point of a row, or none
    when the row is to be skipped. *)
Definition spec_row_point (self : ImportCSVAsMesh) (row : csv.dict)
  : option bpy.Vector :=
  if absent_missing_or_blank row (x_column_name self)
     || absent_missing_or_blank row (y_column_name self)
     || absent_missing_or_blank row (z_column_name self)
  then None
  else
    match parsed row (x_column_name self), parsed row (y_column_name self),
          parsed row (z_column_name self) with
    | Some x, Some y, Some z => Some (x, y, z)
    | _, _, _ => None
    end.

(** The Points the specification expects, in file order. *)
Definition spec_points (self : ImportCSVAsMesh) (rows : list (nat * csv.dict))
  : list bpy.Vector :=
  omap (fun row => spec_row_point self (snd row)) rows.

(** The line number of an enumerated row when the specification skips the
    row. *)
Definition skipped_of (self : ImportCSVAsMesh) (it : nat * (nat * csv.dict))
  : option nat :=
  match spec_row_point self (snd (snd it)) with
  | Some _ => None
  | None => Some (fst it)
  end.

(** The line numbers the specification expects to be skipped: data rows are
    numbered from 2 in the order the reader yields them. *)
Definition spec_skipped (self : ImportCSVAsMesh) (rows : list (nat * csv.dict))
  : list nat :=
  omap (skipped_of self) (enumerate rows 2).

(** A line made of line terminators only (or of nothing). *)
Definition blank_line (line : string) : bool :=
  forallb csv.is_newline (list_ascii_of_string line).

(** The reader after it has consumed [lines], when it raised nothing. *)
Fixpoint reader_after (r : csv.ReaderObj) (lines : list string)
  : result csv.ReaderObj :=
  match lines with
  | [] => Ok r
  | line :: rest =>
      match csv.process_line r line with
      | Raise e => Raise e
      | Ok r' =>
          if csv.ParserState_eqb (csv.state r') csv.START_RECORD
          then reader_after (csv.parse_reset r') rest
          else reader_after r' rest
      end
  end.

(** The lines end where a record ends (not inside a quoted field). *)
Definition between_records (lines : list string) : Prop :=
  exists r, reader_after csv.new_reader lines = Ok r
            /\ csv.state r = csv.START_RECORD.

(** All three coordinates are finite. *)
Definition finite_point (v : bpy.Vector) : bool :=
  let '(x, y, z) := v in
  builtins.isfinite x && builtins.isfinite y && builtins.isfinite z.

(** The label [create_text_label] makes for the vertex [v] of 0-based index
    [idx]. *)
Definition label_of (self : ImportCSVAsMesh) (idx : nat) (v : bpy.Vector)
  : bpy.Object :=
  let text := builtins.str_int (idx + 1) in
  {| bpy.name := "Label_" +:+ text;
     bpy.data := bpy.TextCurve ("Label_" +:+ text) text
                   (alignment_id (label_alignment self));
     bpy.rotation_euler_0 :=
       match label_orientation self with
       | VERTICAL => lit_1_5708
       | HORIZONTAL => bpy.zero
       end;
     bpy.location := (v.1.1, v.1.2, builtins.float_add v.2 (label_offset_z self));
     bpy.scale := (label_size self, label_size self, label_size self) |}.

(** ** Vocabulary of the statements *)

Local Open Scope list_scope.

(** Under a name, a row holds a field or [None], never a list. *)
Definition names_hold_text (d : csv.dict) : Prop :=
  forall key v, d !! Some key = Some v ->
    v = csv.NoneVal \/ exists s, v = csv.Str s.

(** The two lists after a Point is appended. *)
Definition push_point (v : bpy.Vector) (st : locals) : locals :=
  {| verts := verts st ++ [v]; skipped_lines := skipped_lines st |}.

(** The two lists after a line number is appended. *)
Definition push_skipped (n : nat) (st : locals) : locals :=
  {| verts := verts st; skipped_lines := skipped_lines st ++ [n] |}.

(** The step from [st] to [st'] appends one Point and no line number. *)
Definition appends_point (st st' : locals) : Prop :=
  exists v, verts st' = verts st ++ [v] /\ skipped_lines st' = skipped_lines st.

(** The step from [st] to [st'] appends the line number [n] and no Point. *)
Definition appends_skipped (n : nat) (st st' : locals) : Prop :=
  verts st' = verts st /\ skipped_lines st' = skipped_lines st ++ [n].

(** A column of a row cannot be used: its name is absent from the row or
    its value is missing, or the value is empty once trimmed, or the
    trimmed value is rejected by [float]. *)
Definition unusable (row : csv.dict) (column : string) : Prop :=
  column_text row column = None
  \/ exists s, column_text row column = Some s
       /\ (builtins.strip s = ""
           \/ exists e, builtins.float_of_str (builtins.strip s) = Raise e).

(** A column of a row parses to [x]. *)
Definition parses_to (row : csv.dict) (column : string) (x : builtins.float)
  : Prop :=
  exists s, column_text row column = Some s
    /\ builtins.strip s <> ""
    /\ builtins.float_of_str (builtins.strip s) = Ok x.

(** The text reported when the file cannot be read. *)
Definition io_failure_message (e : exn) : string :=
  "Failed to read CSV: " +:+ str_exn e.

(** The text reported when no Point was found. *)
Definition no_valid_points_message : string :=
  "No valid points found in CSV.".

(** The object [execute] makes for the mesh, lines 110 to 114. *)
Definition mesh_object (points : list bpy.Vector) : bpy.Object :=
  bpy.objects_new "CSV_Mesh" (bpy.Mesh "CSV_Mesh" points [] []).

(** An operator looking for the columns of a Disto export, without
    labels. *)
Definition disto_operator (path : string) : ImportCSVAsMesh :=
  {| filepath := path; show_labels := false;
     label_size := bpy.one; label_orientation := VERTICAL;
     label_alignment := CENTER; label_offset_z := bpy.zero;
     x_column_name := "X [m]"; y_column_name := "Y [m]";
     z_column_name := "Z [m]" |}.

(** The same with labels. *)
Definition disto_operator_with_labels (path : string) : ImportCSVAsMesh :=
  {| filepath := path; show_labels := true;
     label_size := bpy.one; label_orientation := VERTICAL;
     label_alignment := CENTER; label_offset_z := bpy.one;
     x_column_name := "X [m]"; y_column_name := "Y [m]";
     z_column_name := "Z [m]" |}.

(** A file system with one readable file. *)
Definition one_file (lines : list string) : filesystem :=
  fun _ => opened lines None.

(** A line with its terminator. *)
Definition ln (s : string) : string := s +:+ String csv.LF "".

(** A host with no object and no report. *)
Definition empty_host : bpy.Host :=
  {| bpy.collection_objects := []; bpy.reports := [] |}.

(** The float [2.0]. *)
Definition two : builtins.float := S754_finite false 4503599627370496 (-51).

(** The reader with its count of lines set to [n]. *)
Definition with_line_num (n : nat) (r : csv.ReaderObj) : csv.ReaderObj :=
  {| csv.fields := csv.fields r; csv.field := csv.field r;
     csv.field_len := csv.field_len r; csv.state := csv.state r;
     csv.line_num := n |}.

(** The result with [f] applied to its value. *)
Definition map_result {A B} (f : A -> B) (x : result A) : result B :=
  match x with
  | Ok a => Ok (f a)
  | Raise e => Raise e
  end.

(** The rows of a list of records given by their fields alone: the first
    is the header, the others make a row each unless they have no field. *)
Definition rows_of_fields (recs : list (list string)) : list csv.dict :=
  match recs with
  | [] => []
  | fieldnames :: rest =>
      map (csv.make_row fieldnames) (filter (fun rec => rec <> []) rest)
  end.

(** The condition under which the reader flushes a record at the end of
    the input. *)
Definition pending (r : csv.ReaderObj) : bool :=
  negb (csv.field_len r =? 0)%N
  || csv.ParserState_eqb (csv.state r) csv.IN_QUOTED_FIELD.

(** A lower bound of the line number of the next record. *)
Definition next_line_num (r : csv.ReaderObj) : nat :=
  if pending r then csv.line_num r else S (csv.line_num r).

(** ** Sample inputs *)

Definition header_line : string := ln "X [m],Y [m],Z [m]".

(** Scenario 1 of the specification: two good rows. *)
Definition two_good_rows : list string :=
  [header_line; ln "1.0,2.0,3.0"; ln "4,5,6"].

(** Scenario 2: a row with an empty field, then a good row. *)
Definition empty_field_then_good_row : list string :=
  [header_line; ln "1.0,,3.0"; ln "4,5,6"].

(** A blank line between the header and a row with an empty field. *)
Definition blank_then_empty_field : list string :=
  [header_line; ln ""; ln "1,,3"].

(** The same without the blank line. *)
Definition only_empty_field : list string :=
  [header_line; ln "1,,3"].

(** A row whose first field is the literal [inf]. *)
Definition infinite_row : list string :=
  [header_line; ln "inf,1,2"].

(** Scenario 3: an operator looking for a column the header lacks. *)
Definition easting_operator (path : string) : ImportCSVAsMesh :=
  {| filepath := path; show_labels := false;
     label_size := bpy.one; label_orientation := VERTICAL;
     label_alignment := CENTER; label_offset_z := bpy.zero;
     x_column_name := "Easting"; y_column_name := "Y [m]";
     z_column_name := "Z [m]" |}.

(** An operator without labels whose label settings differ from those of
    [disto_operator]. *)
Definition other_label_settings (path : string) : ImportCSVAsMesh :=
  {| filepath := path; show_labels := false;
     label_size := two; label_orientation := HORIZONTAL;
     label_alignment := RIGHT; label_offset_z := bpy.one;
     x_column_name := "X [m]"; y_column_name := "Y [m]";
     z_column_name := "Z [m]" |}.

(** Scenario 4: no file at the path. *)
Definition no_such_file : filesystem :=
  fun _ => open_raises (OSError "[Errno 2] No such file or directory").

(** A file whose reading fails after its second line. *)
Definition broken_after_two_lines : filesystem :=
  fun _ => opened [header_line; ln "1,2,3"]
             (Some (UnicodeDecodeError "invalid start byte")).

Definition four : builtins.float := S754_finite false 4503599627370496 (-50).
Definition five : builtins.float := S754_finite false 5629499534213120 (-50).
Definition six : builtins.float := S754_finite false 6755399441055744 (-50).
Definition three : builtins.float := S754_finite false 6755399441055744 (-51).

(** ** Vocabulary of the further properties *)

(** The field of a record at place [i] is not blank once trimmed and
    [float] reads its trimmed text as [x]. *)
Definition field_parses (row : list string) (i : nat) (x : builtins.float)
  : Prop :=
  exists s, row !! i = Some s
    /\ builtins.strip s <> ""
    /\ builtins.float_of_str (builtins.strip s) = Ok x.

(** A header with the three columns of a Disto export. *)
Definition disto_header : list string := ["X [m]"; "Y [m]"; "Z [m]"].

(** A string made of white space only (or of nothing). *)
Definition whitespace (s : string) : bool :=
  forallb builtins.isspace (list_ascii_of_string s).

(** The string [s'] is [s] with white space before and after. *)
Definition padded (s s' : string) : Prop :=
  exists before after,
    whitespace before = true /\ whitespace after = true
    /\ s' = before +:+ s +:+ after.

(** The values two rows hold under a name agree up to white space. *)
Definition same_up_to_padding (v v' : option csv.value) : Prop :=
  match v, v' with
  | None, None => True
  | Some csv.NoneVal, Some csv.NoneVal => True
  | Some (csv.Str s), Some (csv.Str s') => padded s s'
  | _, _ => False
  end.

(** A character that ends neither a field nor a line and opens no quoted
    field. *)
Definition plain_char (c : ascii) : bool :=
  negb (csv.is_newline c)
  && (if ascii_dec c csv.quotechar then false else true)
  && (if ascii_dec c csv.delimiter then false else true).

(** The state is one in which an unquoted field starts or goes on. *)
Definition unquoted (s : csv.ParserState) : Prop :=
  s = csv.START_RECORD \/ s = csv.START_FIELD \/ s = csv.IN_FIELD.

(** A field written as it is, without quotes, and within the reader's
    limit. *)
Definition plain_field (s : string) : Prop :=
  forallb plain_char (list_ascii_of_string s) = true
  /\ (N.of_nat (length (list_ascii_of_string s)) <= csv.field_limit)%N.

(** The line of a record: its fields separated by commas, then the line
    terminator. *)
Definition csv_line (fields : list string) (eol : string) : string :=
  String.concat "," fields +:+ eol.

(** A record the reader gives back from its line: at least one field, all
    plain, and not the single empty field (whose line is blank). *)
Definition writable (fields : list string) : Prop :=
  Forall plain_field fields /\ fields <> [] /\ fields <> [""].

(** The lines of a list of records, each with its line terminator. *)
Definition text_lines (recs : list (list string * string)) : list string :=
  map (fun re => csv_line (fst re) (snd re)) recs.

(** Records numbered from [n], one line each. *)
Fixpoint numbered (n : nat) (recs : list (list string * string))
  : list csv.record :=
  match recs with
  | [] => []
  | re :: rest => (n, fst re) :: numbered (S n) rest
  end.

(** A line that starts with more plain characters than a field may
    hold. *)
Definition overlong_line (line : string) : Prop :=
  exists cs tail,
    list_ascii_of_string line = cs ++ tail
    /\ forallb plain_char cs = true
    /\ (csv.field_limit < N.of_nat (length cs))%N.

(** The text the reader raises with when a field is too long. *)
Definition field_limit_error : exn :=
  csv_Error "field larger than field limit (131072)".

(** The record of a line gives the Point [p]: its fields at the places
    [ix], [iy] and [iz] parse to the coordinates of [p]. *)
Definition row_gives (ix iy iz : nat) (re : list string * string)
    (p : bpy.Vector) : Prop :=
  field_parses (fst re) ix p.1.1
  /\ field_parses (fst re) iy p.1.2
  /\ field_parses (fst re) iz p.2.

(** The report of an import in which every one of [n] rows gave a Point. *)
Definition all_imported_message (n : nat) : string :=
  "Imported " +:+ builtins.str_int n +:+ " points from "
  +:+ builtins.str_int n +:+ " lines.".

(** A string of [n] times the character [c]. *)
Definition repeated (c : ascii) (n : nat) : string :=
  string_of_list_ascii (repeat c n).

(** The line terminator CR LF. *)
Definition crlf : string := String csv.CR (String csv.LF "").

(** A field one character longer than the reader's limit. *)
Definition long_field : string := repeated "1"%char (N.to_nat 131073).

(** A Disto export of two lines, with CR LF after the header and nothing
    after the last line. *)
Definition disto_records : list (list string * string) :=
  [(disto_header, crlf); (["1.0"; "2.0"; "3.0"], crlf); (["4"; "5"; "6"], "")].


(** * Properties *)

Implicit Types (self : ImportCSVAsMesh) (fs : filesystem) (st : locals).
Implicit Types (context : bpy.Host) (lines : list string) (e : exn).
Implicit Types (input_end : option exn) (line_num start : nat).

(** ** Rows hold text or nothing under the header's names *)

Lemma names_hold_text_empty : names_hold_text ∅.
Proof. intros key v H. rewrite lookup_empty in H. discriminate. Qed.

Lemma names_hold_text_insert_str d key s :
  names_hold_text d -> names_hold_text (<[Some key := csv.Str s]> d).
Proof.
  intros Hd key' v. rewrite lookup_insert.
  case_decide as Hk.
  - intros [= <-]. right. eauto.
  - apply Hd.
Qed.

Lemma names_hold_text_insert_none d key :
  names_hold_text d -> names_hold_text (<[Some key := csv.NoneVal]> d).
Proof.
  intros Hd key' v. rewrite lookup_insert.
  case_decide as Hk.
  - intros [= <-]. by left.
  - apply Hd.
Qed.

Lemma names_hold_text_insert_rest d l :
  names_hold_text d -> names_hold_text (<[None := csv.StrList l]> d).
Proof.
  intros Hd key v. rewrite lookup_insert_ne by discriminate. apply Hd.
Qed.

Lemma names_hold_text_foldl_str (pairs : list (string * string)) d :
  names_hold_text d ->
  names_hold_text
    (foldl (fun d kv => <[Some (fst kv) := csv.Str (snd kv)]> d) d pairs).
Proof.
  revert d. induction pairs as [|kv pairs IH]; intros d Hd; simpl.
  - exact Hd.
  - apply IH. by apply names_hold_text_insert_str.
Qed.

Lemma names_hold_text_foldl_none (keys : list string) d :
  names_hold_text d ->
  names_hold_text (foldl (fun d key => <[Some key := csv.NoneVal]> d) d keys).
Proof.
  revert d. induction keys as [|k keys IH]; intros d Hd; simpl.
  - exact Hd.
  - apply IH. by apply names_hold_text_insert_none.
Qed.

Lemma make_row_names_hold_text fieldnames row :
  names_hold_text (csv.make_row fieldnames row).
Proof.
  unfold csv.make_row.
  assert (Hz : names_hold_text (csv.dict_of_zip fieldnames row)).
  { apply names_hold_text_foldl_str, names_hold_text_empty. }
  destruct (_ <? _)%nat.
  - by apply names_hold_text_insert_rest.
  - destruct (_ <? _)%nat; [by apply names_hold_text_foldl_none | exact Hz].
Qed.

Lemma DictReader_rows_hold_text recs :
  Forall (fun row => names_hold_text (snd row)) (csv.DictReader_rows recs).
Proof.
  destruct recs as [|hdr rest]; simpl; [constructor|].
  apply Forall_forall. intros row Hin.
  apply list_elem_of_In, in_map_iff in Hin as (rec & <- & _). simpl.
  apply make_row_names_hold_text.
Qed.

(** ** The loop body against the specification's reading of a row *)

Lemma get_column_text row key :
  names_hold_text row ->
  (csv.get row key = csv.NoneVal /\ column_text row key = None)
  \/ exists s, csv.get row key = csv.Str s /\ column_text row key = Some s.
Proof.
  intros Hrow. unfold csv.get, column_text.
  pose proof (Hrow key) as Hk.
  destruct (row !! Some key) as [v|]; [|by left].
  destruct (Hk v eq_refl) as [->|[s ->]]; [by left|right; eauto].
Qed.

Lemma float_of_str_raises_ValueError s e :
  builtins.float_of_str s = Raise e ->
  is_ValueError_KeyError_TypeError e = true.
Proof.
  unfold builtins.float_of_str, builtins.could_not_convert.
  intros H. repeat case_match; simplify_eq; reflexivity.
Qed.

Lemma loop_body_spec self line_num row st :
  names_hold_text row ->
  loop_body self line_num row st =
    (Ok tt, match spec_row_point self row with
            | Some v => push_point v st
            | None => push_skipped line_num st
            end).
Proof.
  intros Hrow.
  unfold loop_body, spec_row_point, absent_missing_or_blank, parsed.
  destruct (get_column_text row (x_column_name self) Hrow)
    as [[-> ->]|(sx & -> & ->)]; [reflexivity|].
  destruct (get_column_text row (y_column_name self) Hrow)
    as [[-> ->]|(sy & -> & ->)].
  { unfold try_except, bind; simpl. rewrite orb_true_r. reflexivity. }
  destruct (get_column_text row (z_column_name self) Hrow)
    as [[-> ->]|(sz & -> & ->)].
  { unfold try_except, bind; simpl. rewrite !orb_true_r. reflexivity. }
  unfold missing_coordinate, or_else, strip_is_empty, float_strip,
    value_strip, try_except, bind, ret, lift, verts_append,
    skipped_lines_append, is_None; simpl.
  destruct (String.eqb (builtins.strip sx) ""); simpl; [reflexivity|].
  destruct (String.eqb (builtins.strip sy) ""); simpl; [reflexivity|].
  destruct (String.eqb (builtins.strip sz) ""); simpl; [reflexivity|].
  destruct (builtins.float_of_str (builtins.strip sx)) as [x|ex] eqn:Ex.
  2:{ by rewrite (float_of_str_raises_ValueError _ _ Ex). }
  destruct (builtins.float_of_str (builtins.strip sy)) as [y|ey] eqn:Ey.
  2:{ by rewrite (float_of_str_raises_ValueError _ _ Ey). }
  destruct (builtins.float_of_str (builtins.strip sz)) as [z|ez] eqn:Ez.
  2:{ by rewrite (float_of_str_raises_ValueError _ _ Ez). }
  reflexivity.
Qed.

(** ** The scan as a whole *)

Lemma for_in_rows_spec self (rows : list (nat * csv.dict)) start st :
  Forall (fun row => names_hold_text (snd row)) rows ->
  for_in (enumerate rows start)
         (fun it => loop_body self (fst it) (snd (snd it))) st =
    (Ok tt,
     {| verts := verts st ++ spec_points self rows;
        skipped_lines :=
          skipped_lines st ++ omap (skipped_of self) (enumerate rows start) |}).
Proof.
  intros Hrows. revert start st.
  induction Hrows as [|row rows Hrow _ IH]; intros start st; simpl.
  - unfold ret, spec_points. simpl. rewrite !app_nil_r. by destruct st.
  - unfold bind at 1. rewrite loop_body_spec by exact Hrow.
    rewrite IH. unfold spec_points, skipped_of at 2. simpl.
    destruct (spec_row_point self (snd row)) as [v|]; simpl;
      by rewrite <- app_assoc.
Qed.

(** What the outer [try] block leaves behind when the file opens: the
    lists are the specification's, whether or not the reading ended with an
    exception. *)
Lemma read_file_opened self fs lines input_end :
  fs (filepath self) = opened lines input_end ->
  read_file self fs initial =
    (match snd (csv.reader lines input_end) with
     | Some e => Raise e
     | None => Ok tt
     end,
     {| verts := spec_points self (fst (csv.DictReader lines input_end));
        skipped_lines :=
          spec_skipped self (fst (csv.DictReader lines input_end)) |}).
Proof.
  intros Hfs. unfold read_file. rewrite Hfs. unfold bind at 1.
  rewrite for_in_rows_spec by apply DictReader_rows_hold_text.
  simpl. by destruct (snd (csv.reader lines input_end)).
Qed.

Lemma read_file_open_raises self fs e :
  fs (filepath self) = open_raises e ->
  read_file self fs initial = (Raise e, initial).
Proof. intros Hfs. unfold read_file. by rewrite Hfs. Qed.

(** A scan that ends without an exception read a file that opened and
    whose reader raised nothing. *)
Lemma read_file_ok_inv self fs st :
  read_file self fs initial = (Ok tt, st) ->
  exists lines input_end,
    fs (filepath self) = opened lines input_end
    /\ snd (csv.reader lines input_end) = None
    /\ verts st = spec_points self (fst (csv.DictReader lines input_end))
    /\ skipped_lines st =
         spec_skipped self (fst (csv.DictReader lines input_end)).
Proof.
  destruct (fs (filepath self)) as [e|lines input_end] eqn:Hfs.
  - rewrite (read_file_open_raises _ _ _ Hfs). discriminate.
  - rewrite (read_file_opened _ _ _ _ Hfs).
    destruct (snd (csv.reader lines input_end)) eqn:Hr; [discriminate|].
    intros [= <-]. exists lines, input_end. eauto.
Qed.

Lemma length_spec_points_skipped self (rows : list (nat * csv.dict)) start :
  length (spec_points self rows)
  + length (omap (skipped_of self) (enumerate rows start)) = length rows.
Proof.
  unfold spec_points. revert start.
  induction rows as [|row rows IH]; intros start; [reflexivity|].
  specialize (IH (S start)). cbn. unfold skipped_of at 1. cbn.
  destruct (spec_row_point self (snd row)); cbn; lia.
Qed.

Lemma lookup_enumerate {A} (items : list A) start k :
  enumerate items start !! k = (fun a => (start + k, a)) <$> items !! k.
Proof.
  revert start k. induction items as [|a items IH]; intros start [|k]; simpl;
    try reflexivity.
  - by rewrite Nat.add_0_r.
  - rewrite IH. by rewrite Nat.add_succ_r.
Qed.

(** ** C1 *)

(** C1: when the file is read without a file-level error, the number of
    Points plus the number of skipped line numbers is the number of data
    rows the reader yielded, and each data row, at its line number and from
    any state of the two lists, appends either one Point or its line
    number, never both and never neither. *)
Theorem C1_points_plus_skipped self fs lines input_end st :
  fs (filepath self) = opened lines input_end ->
  read_file self fs initial = (Ok tt, st) ->
  let rows := fst (csv.DictReader lines input_end) in
  length (verts st) + length (skipped_lines st) = length rows
  /\ forall k row st1, rows !! k = Some row ->
       exists st2,
         loop_body self (2 + k) (snd row) st1 = (Ok tt, st2)
         /\ (appends_point st1 st2 \/ appends_skipped (2 + k) st1 st2)
         /\ ~ (appends_point st1 st2 /\ appends_skipped (2 + k) st1 st2).
Proof.
  intros Hfs Hread rows.
  rewrite (read_file_opened _ _ _ _ Hfs) in Hread.
  destruct (snd (csv.reader lines input_end)); [discriminate|].
  injection Hread as <-. simpl. split.
  - apply length_spec_points_skipped.
  - intros k row st1 Hk.
    assert (Hrow : names_hold_text (snd row)).
    { pose proof (DictReader_rows_hold_text (fst (csv.reader lines input_end)))
        as Hall.
      rewrite Forall_forall in Hall. apply Hall.
      apply list_elem_of_lookup. eauto. }
    rewrite loop_body_spec by exact Hrow.
    eexists. split; [reflexivity|].
    split.
    + destruct (spec_row_point self (snd row)) as [v|].
      * left. exists v. by split.
      * right. by split.
    + intros [(v & Hv & _) [Hv' _]]. rewrite Hv' in Hv.
      apply (f_equal length) in Hv. rewrite length_app in Hv. simpl in Hv. lia.
Qed.

(** ** C2 *)

Lemma unusable_or_parses (row : csv.dict) column :
  unusable row column \/ exists x, parses_to row column x.
Proof.
  unfold unusable, parses_to.
  destruct (column_text row column) as [s|]; [|left; by left].
  destruct (decide (builtins.strip s = "")) as [Hs|Hs].
  { left. right. eauto. }
  destruct (builtins.float_of_str (builtins.strip s)) as [x|e] eqn:Hf.
  - right. exists x, s. eauto.
  - left. right. exists s. eauto.
Qed.

Lemma unusable_blank_or_unparsed (row : csv.dict) column :
  unusable row column ->
  absent_missing_or_blank row column = true \/ parsed row column = None.
Proof.
  unfold unusable, absent_missing_or_blank, parsed.
  intros [->|(s & -> & [Hs|[e He]])].
  - by left.
  - left. by apply String.eqb_eq.
  - right. by rewrite He.
Qed.

Lemma parses_to_usable (row : csv.dict) column x :
  parses_to row column x ->
  absent_missing_or_blank row column = false /\ parsed row column = Some x.
Proof.
  unfold parses_to, absent_missing_or_blank, parsed.
  intros (s & -> & Hs & ->). split; [|reflexivity].
  by apply String.eqb_neq.
Qed.

Lemma spec_row_point_unusable self (row : csv.dict) :
  unusable row (x_column_name self) \/ unusable row (y_column_name self)
  \/ unusable row (z_column_name self) ->
  spec_row_point self row = None.
Proof.
  unfold spec_row_point.
  intros [H|[H|H]]; apply unusable_blank_or_unparsed in H as [H|H];
    rewrite H; rewrite ?orb_true_r; try reflexivity;
    repeat case_match; reflexivity.
Qed.

Lemma spec_row_point_parses self (row : csv.dict) x y z :
  parses_to row (x_column_name self) x ->
  parses_to row (y_column_name self) y ->
  parses_to row (z_column_name self) z ->
  spec_row_point self row = Some (x, y, z).
Proof.
  intros [Hx1 Hx2]%parses_to_usable [Hy1 Hy2]%parses_to_usable
    [Hz1 Hz2]%parses_to_usable.
  unfold spec_row_point. by rewrite Hx1, Hy1, Hz1, Hx2, Hy2, Hz2.
Qed.

Lemma spec_row_point_Some_inv self (row : csv.dict) v :
  spec_row_point self row = Some v ->
  parses_to row (x_column_name self) v.1.1
  /\ parses_to row (y_column_name self) v.1.2
  /\ parses_to row (z_column_name self) v.2.
Proof.
  intros Hv.
  destruct (unusable_or_parses row (x_column_name self)) as [Hx|[x Hx]].
  { rewrite spec_row_point_unusable in Hv by auto. discriminate. }
  destruct (unusable_or_parses row (y_column_name self)) as [Hy|[y Hy]].
  { rewrite spec_row_point_unusable in Hv by auto. discriminate. }
  destruct (unusable_or_parses row (z_column_name self)) as [Hz|[z Hz]].
  { rewrite spec_row_point_unusable in Hv by auto. discriminate. }
  rewrite (spec_row_point_parses _ _ _ _ _ Hx Hy Hz) in Hv.
  injection Hv as <-. auto.
Qed.

Lemma elem_of_spec_skipped self (rows : list (nat * csv.dict)) n :
  n ∈ spec_skipped self rows <->
  exists k row, rows !! k = Some row /\ n = 2 + k
                /\ spec_row_point self (snd row) = None.
Proof.
  unfold spec_skipped. rewrite list_elem_of_omap. split.
  - intros ([m row] & Hin & Hsk).
    apply list_elem_of_lookup in Hin as [k Hk].
    rewrite lookup_enumerate in Hk.
    destruct (rows !! k) as [row'|] eqn:Hrow; [|discriminate].
    injection Hk as <- <-. unfold skipped_of in Hsk. simpl in Hsk.
    exists k, row'. destruct (spec_row_point self (snd row')); [discriminate|].
    injection Hsk as <-. auto.
  - intros (k & row & Hk & -> & Hnone).
    exists (2 + k, row). split.
    + apply list_elem_of_lookup. exists k. rewrite lookup_enumerate, Hk.
      reflexivity.
    + unfold skipped_of. simpl. by rewrite Hnone.
Qed.

Lemma elem_of_spec_points self (rows : list (nat * csv.dict)) v :
  v ∈ spec_points self rows <->
  exists k row, rows !! k = Some row /\ spec_row_point self (snd row) = Some v.
Proof.
  unfold spec_points. rewrite list_elem_of_omap. split.
  - intros (row & Hin & Hv). apply list_elem_of_lookup in Hin as [k Hk]. eauto.
  - intros (k & row & Hk & Hv). exists row. split; [|exact Hv].
    apply list_elem_of_lookup. eauto.
Qed.

(** C2: when the file is read without a file-level error, the Points are
    those of the usable rows, in file order, and the skipped line numbers
    those of the other rows, the data rows being numbered from 2.  A row
    with a column that is absent, missing, blank once trimmed or rejected by
    [float] has its line number among the skipped ones and gives no Point;
    a row whose three trimmed values parse gives the Point of the three
    parsed values and is not skipped. *)
Theorem C2_rows_become_points_or_skipped self fs lines input_end st :
  fs (filepath self) = opened lines input_end ->
  read_file self fs initial = (Ok tt, st) ->
  let rows := fst (csv.DictReader lines input_end) in
  verts st = spec_points self rows
  /\ skipped_lines st = spec_skipped self rows
  /\ forall k row, rows !! k = Some row ->
       (unusable (snd row) (x_column_name self)
        \/ unusable (snd row) (y_column_name self)
        \/ unusable (snd row) (z_column_name self) ->
        spec_row_point self (snd row) = None
        /\ (2 + k) ∈ skipped_lines st)
       /\ (forall x y z,
             parses_to (snd row) (x_column_name self) x ->
             parses_to (snd row) (y_column_name self) y ->
             parses_to (snd row) (z_column_name self) z ->
             spec_row_point self (snd row) = Some (x, y, z)
             /\ (x, y, z) ∈ verts st
             /\ (2 + k) ∉ skipped_lines st).
Proof.
  intros Hfs Hread rows.
  rewrite (read_file_opened _ _ _ _ Hfs) in Hread.
  destruct (snd (csv.reader lines input_end)); [discriminate|].
  injection Hread as <-. subst rows. simpl.
  split; [reflexivity|]. split; [reflexivity|].
  intros k row Hk. split.
  - intros Hbad. pose proof (spec_row_point_unusable _ _ Hbad) as Hnone.
    split; [exact Hnone|]. apply elem_of_spec_skipped. eauto.
  - intros x y z Hx Hy Hz.
    pose proof (spec_row_point_parses _ _ _ _ _ Hx Hy Hz) as Hsome.
    split; [exact Hsome|]. split.
    + apply elem_of_spec_points. eauto.
    + intros (k' & row' & Hk' & Heq & Hnone)%elem_of_spec_skipped.
      assert (k' = k) as -> by lia.
      rewrite Hk in Hk'. injection Hk' as <-. congruence.
Qed.

(** ** C6 *)

Lemma skipped_of_cons self (row : nat * csv.dict) rows start :
  omap (skipped_of self) (enumerate (row :: rows) start) =
    match spec_row_point self (snd row) with
    | Some _ => omap (skipped_of self) (enumerate rows (S start))
    | None => start :: omap (skipped_of self) (enumerate rows (S start))
    end.
Proof.
  cbn. unfold skipped_of at 1. cbn.
  by destruct (spec_row_point self (snd row)).
Qed.

Lemma skipped_from_sorted self (rows : list (nat * csv.dict)) start :
  StronglySorted lt (omap (skipped_of self) (enumerate rows start))
  /\ Forall (fun n => start <= n) (omap (skipped_of self) (enumerate rows start)).
Proof.
  revert start. induction rows as [|row rows IH]; intros start.
  - split; constructor.
  - destruct (IH (S start)) as [Hsorted Hge]. rewrite skipped_of_cons.
    destruct (spec_row_point self (snd row)).
    + split; [exact Hsorted|].
      eapply Forall_impl; [exact Hge|]. intros n Hn. simpl in Hn. lia.
    + split.
      * constructor; [exact Hsorted|].
        eapply Forall_impl; [exact Hge|]. intros n Hn. simpl in Hn. lia.
      * constructor; [lia|].
        eapply Forall_impl; [exact Hge|]. intros n Hn. simpl in Hn. lia.
Qed.

(** C6: whatever the file, the skipped line numbers the scan has collected
    when it ends are strictly increasing and each is at least 2. *)
Theorem C6_skipped_strictly_increasing self fs :
  let st := snd (read_file self fs initial) in
  StronglySorted lt (skipped_lines st)
  /\ Forall (fun n => 2 <= n) (skipped_lines st).
Proof.
  destruct (fs (filepath self)) as [e|lines input_end] eqn:Hfs.
  - rewrite (read_file_open_raises _ _ _ Hfs). simpl. split; constructor.
  - rewrite (read_file_opened _ _ _ _ Hfs). simpl.
    apply skipped_from_sorted.
Qed.

(** ** The three ways [execute] ends *)

Lemma execute_io_failure self fs context e st :
  read_file self fs initial = (Raise e, st) ->
  execute self fs context =
    (bpy.CANCELLED, bpy.report bpy.ERROR (io_failure_message e) context).
Proof. intros H. unfold execute. by rewrite H. Qed.

Lemma execute_no_valid_points self fs context st :
  read_file self fs initial = (Ok tt, st) ->
  verts st = [] ->
  execute self fs context =
    (bpy.CANCELLED, bpy.report bpy.ERROR no_valid_points_message context).
Proof. intros H Hv. unfold execute. by rewrite H, Hv. Qed.

Lemma messages_differ e : no_valid_points_message <> io_failure_message e.
Proof. discriminate. Qed.

Lemma read_file_initial_cases self fs :
  (exists e st, read_file self fs initial = (Raise e, st))
  \/ exists st, read_file self fs initial = (Ok tt, st).
Proof.
  destruct (read_file self fs initial) as [[[]|e] st]; eauto.
Qed.

(** ** C3 *)

(** C3: when the file is read without an exception and no Point was
    collected, [execute] reports the error of no valid points, whose text
    is not that of any read failure, returns [CANCELLED] and links no
    object. *)
Theorem C3_no_valid_points self fs context st :
  read_file self fs initial = (Ok tt, st) ->
  verts st = [] ->
  execute self fs context =
    (bpy.CANCELLED, bpy.report bpy.ERROR no_valid_points_message context)
  /\ bpy.collection_objects (snd (execute self fs context))
     = bpy.collection_objects context
  /\ forall e, no_valid_points_message <> io_failure_message e.
Proof.
  intros Hread Hverts.
  rewrite (execute_no_valid_points _ _ _ _ Hread Hverts).
  split; [reflexivity|]. split; [reflexivity|]. apply messages_differ.
Qed.

(** ** C4 *)

(** An exception at the end of the input always comes out of the reader,
    unless the reader raised one of its own before. *)
Lemma reader_from_input_end r lines e0 :
  exists e, snd (csv.reader_from r lines (Some e0)) = Some e.
Proof.
  revert r. induction lines as [|line rest IH]; intros r; simpl.
  - eauto.
  - destruct (csv.process_line r line) as [r'|e]; simpl; [|eauto].
    destruct (csv.ParserState_eqb _ _); simpl; apply IH.
Qed.

(** C4: when [open] raises [e], or the reading of the opened file ends
    with the exception [e], [execute] reports the read failure with the
    text of [e], returns [CANCELLED], links no object, and its report is
    not the one of no valid points. *)
Theorem C4_io_failure self fs context e :
  fs (filepath self) = open_raises e
  \/ (exists lines input_end,
        fs (filepath self) = opened lines input_end
        /\ snd (csv.reader lines input_end) = Some e) ->
  execute self fs context =
    (bpy.CANCELLED, bpy.report bpy.ERROR (io_failure_message e) context)
  /\ bpy.collection_objects (snd (execute self fs context))
     = bpy.collection_objects context
  /\ bpy.reports (snd (execute self fs context))
     <> bpy.reports context ++ [(bpy.ERROR, no_valid_points_message)].
Proof.
  intros Hfail.
  assert (Hread : exists st, read_file self fs initial = (Raise e, st)).
  { destruct Hfail as [Hfs|(lines & input_end & Hfs & He)].
    - rewrite (read_file_open_raises _ _ _ Hfs). eauto.
    - rewrite (read_file_opened _ _ _ _ Hfs), He. eauto. }
  destruct Hread as [st Hread].
  rewrite (execute_io_failure _ _ _ _ _ Hread).
  split; [reflexivity|]. split; [reflexivity|]. simpl.
  intros H. apply app_inv_head in H. discriminate.
Qed.

(** ** C9 *)

(** C9: a run that fails to read its file and a run that finds no valid
    point return the same status, [CANCELLED]; from the same host, both
    leave the objects as they were and add one [ERROR] report, and the two
    reports differ in their text. *)
Theorem C9_same_status_for_both_failures
    self1 fs1 self2 fs2 context e st1 st2 :
  read_file self1 fs1 initial = (Raise e, st1) ->
  read_file self2 fs2 initial = (Ok tt, st2) ->
  verts st2 = [] ->
  fst (execute self1 fs1 context) = bpy.CANCELLED
  /\ fst (execute self2 fs2 context) = fst (execute self1 fs1 context)
  /\ (exists m1 m2,
        snd (execute self1 fs1 context) = bpy.report bpy.ERROR m1 context
        /\ snd (execute self2 fs2 context) = bpy.report bpy.ERROR m2 context
        /\ m1 = io_failure_message e
        /\ m2 = no_valid_points_message
        /\ m1 <> m2).
Proof.
  intros H1 H2 Hv.
  rewrite (execute_io_failure _ _ _ _ _ H1).
  rewrite (execute_no_valid_points _ _ _ _ H2 Hv). simpl.
  split; [reflexivity|]. split; [reflexivity|].
  exists (io_failure_message e), no_valid_points_message.
  repeat split. intros H. symmetry in H. by apply messages_differ in H.
Qed.

(** ** C10 *)

Lemma spec_row_point_columns self1 self2 (row : csv.dict) :
  x_column_name self1 = x_column_name self2 ->
  y_column_name self1 = y_column_name self2 ->
  z_column_name self1 = z_column_name self2 ->
  spec_row_point self1 row = spec_row_point self2 row.
Proof. intros Hx Hy Hz. unfold spec_row_point. by rewrite Hx, Hy, Hz. Qed.

Lemma loop_body_columns self1 self2 (line_num : nat) (row : csv.dict) :
  x_column_name self1 = x_column_name self2 ->
  y_column_name self1 = y_column_name self2 ->
  z_column_name self1 = z_column_name self2 ->
  loop_body self1 line_num row = loop_body self2 line_num row.
Proof. intros Hx Hy Hz. unfold loop_body. by rewrite Hx, Hy, Hz. Qed.

Lemma for_in_ext {A} (items : list A) (body1 body2 : A -> M unit) :
  (forall a, body1 a = body2 a) ->
  for_in items body1 = for_in items body2.
Proof.
  intros Hext. induction items as [|a items IH]; simpl; [reflexivity|].
  by rewrite Hext, IH.
Qed.

Lemma read_file_columns self1 self2 fs :
  filepath self1 = filepath self2 ->
  x_column_name self1 = x_column_name self2 ->
  y_column_name self1 = y_column_name self2 ->
  z_column_name self1 = z_column_name self2 ->
  read_file self1 fs = read_file self2 fs.
Proof.
  intros Hp Hx Hy Hz. unfold read_file. rewrite Hp.
  destruct (fs (filepath self2)); [reflexivity|].
  f_equal. apply for_in_ext. intros it. by apply loop_body_columns.
Qed.

(** C10: two runs without labels on the same file system and host, with
    the same path and the same three column names, end the same whatever
    their label size, offset, orientation and alignment: same Points and
    skipped line numbers, same status, same objects and same reports. *)
Theorem C10_label_settings_unused_without_labels self1 self2 fs context :
  show_labels self1 = false ->
  show_labels self2 = false ->
  filepath self1 = filepath self2 ->
  x_column_name self1 = x_column_name self2 ->
  y_column_name self1 = y_column_name self2 ->
  z_column_name self1 = z_column_name self2 ->
  read_file self1 fs initial = read_file self2 fs initial
  /\ execute self1 fs context = execute self2 fs context.
Proof.
  intros Hl1 Hl2 Hp Hx Hy Hz.
  pose proof (read_file_columns self1 self2 fs Hp Hx Hy Hz) as Hread.
  split; [by rewrite Hread|].
  unfold execute. rewrite Hread, Hl1, Hl2. reflexivity.
Qed.

(** ** C7 *)

Lemma create_text_label_links self idx (v : bpy.Vector) (h : bpy.Host) :
  create_text_label (builtins.str_int (idx + 1)) v (label_size self)
    (String.eqb (orientation_id (label_orientation self)) "VERTICAL")
    (alignment_id (label_alignment self)) (label_offset_z self) h
  = bpy.link (label_of self idx v) h.
Proof.
  destruct v as [[x y] z]. unfold create_text_label, label_of.
  destruct (label_alignment self), (label_orientation self); reflexivity.
Qed.

Lemma create_labels_spec self idx (vs : list bpy.Vector) (h : bpy.Host) :
  create_labels self idx vs h =
    {| bpy.collection_objects :=
         bpy.collection_objects h ++ imap (fun i => label_of self (idx + i)) vs;
       bpy.reports := bpy.reports h |}.
Proof.
  revert idx h. induction vs as [|v vs IH]; intros idx h; simpl.
  - rewrite app_nil_r. by destruct h.
  - rewrite create_text_label_links, IH. simpl. rewrite <- app_assoc. simpl.
    rewrite Nat.add_0_r. do 3 f_equal. apply imap_ext. intros i w _. simpl.
    by rewrite Nat.add_succ_r.
Qed.

Lemma execute_FINISHED_inv self fs context :
  fst (execute self fs context) = bpy.FINISHED ->
  exists st, read_file self fs initial = (Ok tt, st) /\ verts st <> [].
Proof.
  unfold execute.
  destruct (read_file self fs initial) as [[[]|e] st]; [|discriminate].
  destruct (verts st) eqn:Hv; [discriminate|]. intros _. exists st.
  split; [reflexivity|]. by rewrite Hv.
Qed.

Lemma execute_finished_objects self fs context st :
  read_file self fs initial = (Ok tt, st) ->
  verts st <> [] ->
  fst (execute self fs context) = bpy.FINISHED
  /\ bpy.collection_objects (snd (execute self fs context))
     = bpy.collection_objects context
       ++ mesh_object (verts st)
       :: (if show_labels self
           then imap (fun i => label_of self i) (verts st) else []).
Proof.
  intros Hread Hne. unfold execute. rewrite Hread.
  destruct (verts st) as [|v vs] eqn:Hv; [done|]. rewrite <- Hv.
  split; [reflexivity|]. simpl.
  destruct (show_labels self); [|reflexivity].
  rewrite create_labels_spec. simpl. by rewrite <- app_assoc.
Qed.

(** C7: after a successful import with labels, the objects linked are the
    mesh and then one label per Point, in the order of the Points.  The
    label of the Point of 1-based index [i + 1] is named after and has for
    body the decimal string of [i + 1], has the alignment asked for, is
    rotated by [1.5708] radians (the add-on's quarter turn) about the first
    axis when the orientation is [VERTICAL] and not at all when
    [HORIZONTAL], is placed at the Point with [label_offset_z] added to the
    third coordinate, and is scaled by [label_size] on the three axes. *)
Theorem C7_one_label_per_point self fs context :
  show_labels self = true ->
  fst (execute self fs context) = bpy.FINISHED ->
  let points := verts (snd (read_file self fs initial)) in
  exists labels,
    bpy.collection_objects (snd (execute self fs context))
    = bpy.collection_objects context
      ++ bpy.objects_new "CSV_Mesh" (bpy.Mesh "CSV_Mesh" points [] [])
      :: labels
    /\ length labels = length points
    /\ forall i x y z, points !! i = Some (x, y, z) ->
         exists label,
           labels !! i = Some label
           /\ bpy.data label
              = bpy.TextCurve ("Label_" +:+ builtins.str_int (i + 1))
                  (builtins.str_int (i + 1))
                  (alignment_id (label_alignment self))
           /\ bpy.location label
              = (x, y, builtins.float_add z (label_offset_z self))
           /\ bpy.scale label
              = (label_size self, label_size self, label_size self)
           /\ bpy.rotation_euler_0 label
              = match label_orientation self with
                | VERTICAL => lit_1_5708
                | HORIZONTAL => bpy.zero
                end.
Proof.
  intros Hshow Hfin points.
  destruct (execute_FINISHED_inv _ _ _ Hfin) as (st & Hread & Hne).
  subst points. rewrite Hread. cbn [snd].
  destruct (execute_finished_objects _ _ context _ Hread Hne) as [_ ->].
  rewrite Hshow.
  exists (imap (fun i => label_of self i) (verts st)).
  split; [reflexivity|]. split; [apply length_imap|].
  intros i x y z Hi. exists (label_of self i (x, y, z)).
  split.
  { rewrite list_lookup_imap.
    change (verts st !! i = Some ((x, y, z) : bpy.Vector)) in Hi.
    by rewrite Hi. }
  unfold label_of. simpl. auto.
Qed.

(** ** C5 *)

(** C5, as stated, fails: the row [inf,1,2] is read without error and
    gives a Point whose first coordinate is infinite, and [execute] makes
    the mesh with it. *)
Lemma C5_infinite_point :
  let self := disto_operator "survey.csv" in
  let fs := one_file [ln "X [m],Y [m],Z [m]"; ln "inf,1,2"] in
  read_file self fs initial
  = (Ok tt, {| verts := [(S754_infinity false, bpy.one, two)];
               skipped_lines := [] |})
  /\ finite_point (S754_infinity false, bpy.one, two) = false
  /\ fst (execute self fs empty_host) = bpy.FINISHED.
Proof. vm_compute. auto. Qed.

(** C5, amended: every Point comes from a data row whose three configured
    columns are present, not blank once trimmed, and accepted by [float],
    and its coordinates are the three parsed values; the values need not
    be finite. *)
Theorem C5_points_come_from_parsed_rows self fs st v :
  read_file self fs initial = (Ok tt, st) ->
  v ∈ verts st ->
  exists lines input_end k row,
    fs (filepath self) = opened lines input_end
    /\ fst (csv.DictReader lines input_end) !! k = Some row
    /\ parses_to (snd row) (x_column_name self) v.1.1
    /\ parses_to (snd row) (y_column_name self) v.1.2
    /\ parses_to (snd row) (z_column_name self) v.2.
Proof.
  intros Hread Hv.
  destruct (read_file_ok_inv _ _ _ Hread)
    as (lines & input_end & Hfs & _ & Hverts & _).
  rewrite Hverts in Hv.
  apply elem_of_spec_points in Hv as (k & row & Hk & Hpoint).
  exists lines, input_end, k, row.
  split; [exact Hfs|]. split; [exact Hk|].
  by apply spec_row_point_Some_inv.
Qed.

(** ** The reader: line numbers, blank lines, prefixes *)

Lemma parse_process_char_line_num n r c :
  csv.parse_process_char (with_line_num n r) c
  = map_result (with_line_num n) (csv.parse_process_char r c).
Proof.
  unfold csv.parse_process_char, csv.add_char_then, csv.parse_add_char.
  destruct r as [fs f fl s ln]. simpl.
  destruct s, c as [ch|]; simpl; try reflexivity;
    destruct (csv.is_newline ch); simpl; try reflexivity;
    destruct (ascii_dec ch csv.quotechar); simpl; try reflexivity;
    destruct (ascii_dec ch csv.delimiter); simpl; try reflexivity;
    destruct (csv.field_limit <=? fl)%N; reflexivity.
Qed.

Lemma process_chars_line_num n r cs :
  csv.process_chars (with_line_num n r) cs
  = map_result (with_line_num n) (csv.process_chars r cs).
Proof.
  revert r. induction cs as [|c cs IH]; intros r; simpl; [reflexivity|].
  rewrite parse_process_char_line_num.
  destruct (csv.parse_process_char r (Some c)); simpl; [apply IH|reflexivity].
Qed.

Lemma process_line_line_num n r line :
  csv.process_line (with_line_num n r) line
  = map_result (with_line_num (S n)) (csv.process_line r line).
Proof.
  unfold csv.process_line.
  change {| csv.fields := csv.fields (with_line_num n r);
            csv.field := csv.field (with_line_num n r);
            csv.field_len := csv.field_len (with_line_num n r);
            csv.state := csv.state (with_line_num n r);
            csv.line_num := S (csv.line_num (with_line_num n r)) |}
    with (with_line_num (S n)
            {| csv.fields := csv.fields r; csv.field := csv.field r;
               csv.field_len := csv.field_len r; csv.state := csv.state r;
               csv.line_num := S (csv.line_num r) |}).
  rewrite process_chars_line_num.
  destruct (csv.process_chars _ _); simpl; [|reflexivity].
  rewrite parse_process_char_line_num.
  destruct (csv.parse_process_char _ _); reflexivity.
Qed.

Lemma with_line_num_id r : with_line_num (csv.line_num r) r = r.
Proof. by destruct r. Qed.

(** A line leaves the count of lines one higher. *)
Lemma process_line_counts r line r' :
  csv.process_line r line = Ok r' -> csv.line_num r' = S (csv.line_num r).
Proof.
  intros H. pose proof (process_line_line_num 0 r line) as H0.
  rewrite H in H0. simpl in H0.
  rewrite <- (with_line_num_id r) in H.
  rewrite process_line_line_num in H.
  destruct (csv.process_line (with_line_num 0 r) line) as [r0|]; [|discriminate].
  destruct (csv.process_line r line) as [r1|]; [|discriminate].
  simpl in H. injection H as <-. reflexivity.
Qed.

(** The fields of the records, without their line numbers, do not depend
    on the count of lines the reader starts from. *)
Lemma reader_from_line_num n r lines input_end :
  map snd (fst (csv.reader_from (with_line_num n r) lines input_end))
  = map snd (fst (csv.reader_from r lines input_end))
  /\ snd (csv.reader_from (with_line_num n r) lines input_end)
     = snd (csv.reader_from r lines input_end).
Proof.
  revert n r. induction lines as [|line rest IH]; intros n r; simpl.
  - destruct input_end; [by split|]. simpl.
    destruct (_ || _); by split.
  - rewrite process_line_line_num.
    destruct (csv.process_line r line) as [r'|e]; simpl; [|by split].
    destruct (csv.ParserState_eqb (csv.state r') csv.START_RECORD).
    + change (csv.parse_reset (with_line_num (S n) r'))
        with (with_line_num (S n) (csv.parse_reset r')).
      destruct (IH (S n) (csv.parse_reset r')) as [IH1 IH2].
      simpl. split; [f_equal; exact IH1|exact IH2].
    + apply IH.
Qed.

Lemma process_chars_newlines r cs :
  forallb csv.is_newline cs = true ->
  csv.state r = csv.START_RECORD \/ csv.state r = csv.EAT_CRNL ->
  exists s, (s = csv.START_RECORD \/ s = csv.EAT_CRNL)
            /\ csv.process_chars r cs = Ok (csv.set_state s r).
Proof.
  revert r. induction cs as [|c cs IH]; intros r Hcs Hst; simpl.
  - exists (csv.state r). split; [exact Hst|]. by destruct r.
  - simpl in Hcs. apply andb_true_iff in Hcs as [Hc Hcs].
    assert (Hstep : csv.parse_process_char r (Some c)
                    = Ok (csv.set_state csv.EAT_CRNL r)).
    { destruct r as [fs f fl s ln]. simpl in Hst.
      unfold csv.parse_process_char, csv.set_state. simpl.
      destruct Hst as [-> | ->]; by rewrite Hc. }
    rewrite Hstep.
    destruct (IH (csv.set_state csv.EAT_CRNL r) Hcs) as (s & Hs & ->);
      [by right|].
    exists s. split; [exact Hs|]. reflexivity.
Qed.

(** A blank line read at the start of a record gives the record without
    fields and changes nothing but the count of lines. *)
Lemma process_line_blank r line :
  blank_line line = true ->
  csv.state r = csv.START_RECORD ->
  csv.process_line r line
  = Ok (with_line_num (S (csv.line_num r)) r).
Proof.
  intros Hblank Hst. unfold csv.process_line.
  edestruct (process_chars_newlines
               {| csv.fields := csv.fields r; csv.field := csv.field r;
                  csv.field_len := csv.field_len r; csv.state := csv.state r;
                  csv.line_num := S (csv.line_num r) |}
               (list_ascii_of_string line) Hblank) as (s & Hs & ->).
  { by left. }
  unfold csv.parse_process_char, csv.set_state, with_line_num. simpl.
  destruct Hs as [-> | ->]; simpl; by rewrite Hst.
Qed.

(** The records of a list of lines begin with those completed in a
    prefix; the rest is read from the reader left by the prefix. *)
Lemma reader_from_app r pre r1 :
  reader_after r pre = Ok r1 ->
  exists recs,
    (forall rest input_end,
       csv.reader_from r (pre ++ rest) input_end
       = (recs ++ fst (csv.reader_from r1 rest input_end),
          snd (csv.reader_from r1 rest input_end)))
    /\ (pre <> [] -> csv.state r1 = csv.START_RECORD ->
        recs <> [] /\ r1 = csv.parse_reset r1).
Proof.
  revert r. induction pre as [|line pre IH]; intros r Hafter; simpl in *.
  - injection Hafter as <-. exists []. split; [|done].
    intros rest input_end. by destruct (csv.reader_from r rest input_end).
  - destruct (csv.process_line r line) as [r'|e]; [|discriminate].
    destruct (csv.ParserState_eqb (csv.state r') csv.START_RECORD) eqn:Hst.
    + destruct (IH _ Hafter) as (recs & Hrecs & Hfresh).
      exists ((csv.line_num r', csv.fields r') :: recs). split.
      * intros rest input_end. rewrite Hrecs. reflexivity.
      * intros _ Hr1. split; [done|].
        destruct pre as [|line' pre']; [|by apply Hfresh].
        simpl in Hafter. by injection Hafter as <-.
    + destruct (IH _ Hafter) as (recs & Hrecs & Hfresh).
      exists recs. split; [exact Hrecs|].
      intros _ Hr1. destruct pre as [|line' pre']; [|by apply Hfresh].
      simpl in Hafter. injection Hafter as <-. rewrite Hr1 in Hst.
      discriminate.
Qed.

(** The fields of the records of a file, and of the same file with a
    blank line added where a record ends, after the first line. *)
Lemma reader_blank_line pre blank post input_end :
  pre <> [] ->
  between_records pre ->
  blank_line blank = true ->
  exists hdr before after,
    map snd (fst (csv.reader (pre ++ post) input_end))
    = hdr :: before ++ after
    /\ map snd (fst (csv.reader (pre ++ blank :: post) input_end))
       = hdr :: before ++ [] :: after
    /\ snd (csv.reader (pre ++ blank :: post) input_end)
       = snd (csv.reader (pre ++ post) input_end).
Proof.
  intros Hpre (r1 & Hafter & Hst) Hblank.
  destruct (reader_from_app _ _ _ Hafter) as (recs & Hrecs & Hfresh).
  destruct (Hfresh Hpre Hst) as [Hne Hr1].
  destruct recs as [|hdr recs]; [done|].
  unfold csv.reader. rewrite !Hrecs. simpl.
  rewrite (process_line_blank _ _ Hblank Hst).
  change (csv.state (with_line_num (S (csv.line_num r1)) r1))
    with (csv.state r1).
  rewrite Hst. simpl.
  change (csv.parse_reset (with_line_num (S (csv.line_num r1)) r1))
    with (with_line_num (S (csv.line_num r1)) (csv.parse_reset r1)).
  rewrite <- Hr1.
  destruct (reader_from_line_num (S (csv.line_num r1)) r1 post input_end)
    as [Hfields Hend].
  exists (snd hdr), (map snd recs),
    (map snd (fst (csv.reader_from r1 post input_end))).
  rewrite !map_app. simpl. rewrite Hr1 at 3. simpl.
  split; [reflexivity|]. split; [|exact Hend].
  do 3 f_equal. exact Hfields.
Qed.

(** ** The rows without the reader's line numbers *)

Lemma filter_nonblank_fields (recs : list csv.record) :
  map snd (filter (fun rec => csv.is_blank_record rec = false) recs)
  = filter (fun rec => rec <> []) (map snd recs).
Proof.
  induction recs as [|[n rec] recs IH]; [reflexivity|].
  simpl map. destruct rec as [|f fs].
  - rewrite filter_cons_False by (by cbv).
    rewrite filter_cons_False by (by intros H). exact IH.
  - rewrite filter_cons_True by reflexivity.
    rewrite filter_cons_True by discriminate. simpl. by rewrite IH.
Qed.

Lemma DictReader_rows_fields (recs : list csv.record) :
  map snd (csv.DictReader_rows recs) = rows_of_fields (map snd recs).
Proof.
  destruct recs as [|hdr rest]; [reflexivity|]. simpl.
  rewrite <- filter_nonblank_fields, !map_map. reflexivity.
Qed.

Lemma rows_of_fields_blank hdr before after :
  rows_of_fields (hdr :: before ++ [] :: after)
  = rows_of_fields (hdr :: before ++ after).
Proof.
  simpl. rewrite !filter_app. by rewrite filter_cons_False by auto.
Qed.

Lemma spec_points_fields self (rows1 rows2 : list (nat * csv.dict)) :
  map snd rows1 = map snd rows2 ->
  spec_points self rows1 = spec_points self rows2.
Proof.
  revert rows2. induction rows1 as [|r1 rows1 IH]; intros [|r2 rows2] H;
    try discriminate; [reflexivity|].
  injection H as Hr Hrows. unfold spec_points in *. cbn. rewrite Hr.
  by rewrite (IH rows2 Hrows).
Qed.

Lemma skipped_fields self (rows1 rows2 : list (nat * csv.dict)) start :
  map snd rows1 = map snd rows2 ->
  omap (skipped_of self) (enumerate rows1 start)
  = omap (skipped_of self) (enumerate rows2 start).
Proof.
  revert rows2 start.
  induction rows1 as [|r1 rows1 IH]; intros [|r2 rows2] start H;
    try discriminate; [reflexivity|].
  injection H as Hr Hrows. rewrite !skipped_of_cons, Hr.
  by rewrite (IH rows2 (S start) Hrows).
Qed.

(** ** Line numbers of the records *)

Lemma reader_from_line_nums r lines input_end :
  let nums := map fst (fst (csv.reader_from r lines input_end)) in
  StronglySorted lt nums /\ Forall (fun p => next_line_num r <= p) nums.
Proof.
  revert r. induction lines as [|line rest IH]; intros r; simpl.
  - destruct input_end; simpl; [split; constructor|].
    unfold next_line_num, pending. destruct (_ || _); simpl.
    + split; repeat constructor.
    + split; constructor.
  - destruct (csv.process_line r line) as [r'|e] eqn:Hline; simpl;
      [|split; constructor].
    pose proof (process_line_counts _ _ _ Hline) as Hnum.
    assert (Hlo : next_line_num r <= S (csv.line_num r)).
    { unfold next_line_num. destruct (pending r); lia. }
    destruct (csv.ParserState_eqb (csv.state r') csv.START_RECORD).
    + destruct (IH (csv.parse_reset r')) as [Hsorted Hge]. simpl.
      unfold next_line_num, pending in Hge. simpl in Hge.
      split.
      * constructor; [exact Hsorted|].
        eapply Forall_impl; [exact Hge|]. intros p Hp. simpl in Hp. lia.
      * constructor; [lia|].
        eapply Forall_impl; [exact Hge|]. intros p Hp. simpl in Hp. lia.
    + destruct (IH r') as [Hsorted Hge]. split; [exact Hsorted|].
      eapply Forall_impl; [exact Hge|]. intros p Hp. simpl in Hp.
      unfold next_line_num in Hp. destruct (pending r'); lia.
Qed.

Lemma sorted_lookup_ge (nums : list nat) lo i p :
  StronglySorted lt nums ->
  Forall (fun q => lo <= q) nums ->
  nums !! i = Some p ->
  lo + i <= p.
Proof.
  intros Hsorted. revert lo i.
  induction Hsorted as [|q nums Hsorted IH Hall]; intros lo i Hge Hi.
  - discriminate.
  - destruct i as [|i]; simpl in Hi.
    + injection Hi as <-. inversion Hge; subst. lia.
    + assert (S lo + i <= p); [|lia].
      apply IH; [|exact Hi].
      eapply Forall_impl; [exact Hall|]. intros x Hx. simpl in Hx.
      inversion Hge; subst. lia.
Qed.

Lemma sorted_lookup_lt (nums : list nat) i j p q :
  StronglySorted lt nums ->
  nums !! i = Some p ->
  nums !! j = Some q ->
  q < p ->
  j < i.
Proof.
  intros Hsorted. revert i j.
  induction Hsorted as [|x nums Hsorted IH Hall]; intros i j Hi Hj Hlt.
  - discriminate.
  - destruct i as [|i], j as [|j]; simpl in Hi, Hj.
    + simplify_eq. lia.
    + injection Hi as ->. rewrite Forall_forall in Hall.
      assert (p < q); [|lia]. apply Hall.
      apply list_elem_of_lookup. eauto.
    + lia.
    + assert (j < i); [|lia]. by apply IH.
Qed.

Lemma filter_lookup_index {A} (P : A -> Prop) `{!forall x, Decision (P x)}
    (l : list A) k x :
  filter P l !! k = Some x ->
  exists i, l !! i = Some x /\ k <= i
            /\ forall j y, j < i -> l !! j = Some y -> ~ P y -> k < i.
Proof.
  revert k. induction l as [|a l IH]; intros k Hk.
  - discriminate.
  - destruct (decide (P a)) as [Ha|Ha].
    + rewrite filter_cons_True in Hk by exact Ha.
      destruct k as [|k]; simpl in Hk.
      * injection Hk as <-. exists 0. split; [reflexivity|].
        split; [lia|]. intros j y Hj. lia.
      * destruct (IH k Hk) as (i & Hi & Hle & Hblank).
        exists (S i). split; [exact Hi|]. split; [lia|].
        intros [|j] y Hj Hy Hny; simpl in Hy.
        -- by injection Hy as <-.
        -- assert (k < i); [|lia]. apply (Hblank j y); [lia|done|done].
    + rewrite filter_cons_False in Hk by exact Ha.
      destruct (IH k Hk) as (i & Hi & Hle & _).
      exists (S i). split; [exact Hi|]. split; [lia|]. intros; lia.
Qed.

(** ** C8 *)

Lemma read_file_blank_line self fs1 fs2 pre blank post input_end :
  pre <> [] ->
  between_records pre ->
  blank_line blank = true ->
  fs1 (filepath self) = opened (pre ++ blank :: post) input_end ->
  fs2 (filepath self) = opened (pre ++ post) input_end ->
  read_file self fs1 initial = read_file self fs2 initial.
Proof.
  intros Hpre Hbetween Hblank Hfs1 Hfs2.
  rewrite (read_file_opened _ _ _ _ Hfs1), (read_file_opened _ _ _ _ Hfs2).
  destruct (reader_blank_line pre blank post input_end Hpre Hbetween Hblank)
    as (hdr & before & after & Hwithout & Hwith & Hend).
  assert (Hrows :
    map snd (fst (csv.DictReader (pre ++ blank :: post) input_end))
    = map snd (fst (csv.DictReader (pre ++ post) input_end))).
  { unfold csv.DictReader. simpl. rewrite !DictReader_rows_fields.
    rewrite Hwith, Hwithout. apply rows_of_fields_blank. }
  rewrite Hend. f_equal.
  change (spec_skipped self) with (fun rows : list (nat * csv.dict) =>
    omap (skipped_of self) (enumerate rows 2)). cbv beta.
  by rewrite (spec_points_fields _ _ _ Hrows), (skipped_fields _ _ _ 2 Hrows).
Qed.

Lemma skipped_line_number_below_physical self lines input_end n :
  n ∈ spec_skipped self (fst (csv.DictReader lines input_end)) ->
  exists k p row,
    fst (csv.DictReader lines input_end) !! k = Some (p, row)
    /\ n = 2 + k
    /\ n <= p
    /\ forall j q, fst (csv.reader lines input_end) !! S j = Some (q, [])
                   -> q < p -> n < p.
Proof.
  intros (k & [p row] & Hk & -> & _)%elem_of_spec_skipped.
  exists k, p, row. split; [exact Hk|]. split; [reflexivity|].
  unfold csv.DictReader in Hk. cbn [fst] in Hk.
  destruct (reader_from_line_nums csv.new_reader lines input_end)
    as [Hsorted Hge]. fold (csv.reader lines input_end) in Hsorted, Hge.
  destruct (fst (csv.reader lines input_end)) as [|hdr rest] eqn:Hrecs;
    [discriminate|].
  unfold csv.DictReader_rows in Hk.
  apply list_lookup_fmap_Some in Hk as (rec & Hrec & Hfilter).
  injection Hrec as -> _.
  destruct (filter_lookup_index _ _ _ _ Hfilter) as (i & Hi & Hle & Hblank).
  assert (Hnum : map fst (hdr :: rest) !! S i = Some (fst rec)).
  { simpl. change (map fst rest) with (fst <$> rest).
    by rewrite list_lookup_fmap, Hi. }
  pose proof (sorted_lookup_ge _ _ _ _ Hsorted Hge Hnum) as Hlow.
  change (next_line_num csv.new_reader) with 1 in Hlow.
  split; [lia|].
  intros j q Hj Hq.
  assert (Hnumj : map fst (hdr :: rest) !! S j = Some q).
  { change ((fst <$> rest) !! j = Some q). apply list_lookup_fmap_Some.
    exists (q, []). split; [reflexivity|exact Hj]. }
  pose proof (sorted_lookup_lt _ _ _ _ _ Hsorted Hnum Hnumj Hq) as Hji.
  assert (k < i); [|lia].
  apply (Hblank j (q, [])); [lia|exact Hj|]. by cbv.
Qed.

(** C8: a blank line after the first line, where a record ends, changes
    neither the Points nor the skipped line numbers nor anything [execute]
    does; the rows are the records after the first that have a field, and a
    skipped line number is 2 plus the position of its row among them; it
    is at most the number [p] of the physical line where the row ends, and
    smaller as soon as a blank line comes between the header and the
    row. *)
Theorem C8_blank_lines_are_not_counted self :
  (forall fs1 fs2 pre blank post input_end,
     pre <> [] ->
     between_records pre ->
     blank_line blank = true ->
     fs1 (filepath self) = opened (pre ++ blank :: post) input_end ->
     fs2 (filepath self) = opened (pre ++ post) input_end ->
     read_file self fs1 initial = read_file self fs2 initial
     /\ forall context,
          execute self fs1 context = execute self fs2 context)
  /\ (forall fs lines input_end n,
        fs (filepath self) = opened lines input_end ->
        n ∈ skipped_lines (snd (read_file self fs initial)) ->
        map snd (fst (csv.DictReader lines input_end))
        = rows_of_fields (map snd (fst (csv.reader lines input_end)))
        /\ exists k p row,
             fst (csv.DictReader lines input_end) !! k = Some (p, row)
             /\ n = 2 + k
             /\ n <= p
             /\ forall j q,
                  fst (csv.reader lines input_end) !! S j = Some (q, []) ->
                  q < p -> n < p).
Proof.
  split.
  - intros fs1 fs2 pre blank post input_end Hpre Hbetween Hblank Hfs1 Hfs2.
    pose proof (read_file_blank_line self fs1 fs2 pre blank post input_end
                  Hpre Hbetween Hblank Hfs1 Hfs2) as Hread.
    split; [exact Hread|].
    intros context. unfold execute. by rewrite Hread.
  - intros fs lines input_end n Hfs Hn.
    rewrite (read_file_opened _ _ _ _ Hfs) in Hn. simpl in Hn.
    split; [apply DictReader_rows_fields|].
    by apply (skipped_line_number_below_physical self).
Qed.

(** * The scenarios of the specification *)

Example scenario_1 :
  read_file (disto_operator "survey.csv") (one_file two_good_rows) initial
  = (Ok tt, {| verts := [(bpy.one, two, three); (four, five, six)];
               skipped_lines := [] |}).
Proof. vm_compute. reflexivity. Qed.

Example scenario_1_report :
  execute (disto_operator "survey.csv") (one_file two_good_rows) empty_host
  = (bpy.FINISHED,
     {| bpy.collection_objects :=
          [mesh_object [(bpy.one, two, three); (four, five, six)]];
        bpy.reports := [(bpy.INFO, "Imported 2 points from 2 lines.")] |}).
Proof. vm_compute. reflexivity. Qed.

Example scenario_2 :
  read_file (disto_operator "survey.csv")
    (one_file empty_field_then_good_row) initial
  = (Ok tt, {| verts := [(four, five, six)]; skipped_lines := [2] |}).
Proof. vm_compute. reflexivity. Qed.

Example scenario_2_report :
  snd (execute (disto_operator "survey.csv")
         (one_file empty_field_then_good_row) empty_host)
  = {| bpy.collection_objects := [mesh_object [(four, five, six)]];
       bpy.reports :=
         [(bpy.INFO, "Imported 1 points from 2 lines. Skipped lines: [2]")] |}.
Proof. vm_compute. reflexivity. Qed.

Example scenario_3 :
  execute (easting_operator "survey.csv") (one_file two_good_rows) empty_host
  = (bpy.CANCELLED,
     bpy.report bpy.ERROR no_valid_points_message empty_host)
  /\ skipped_lines
       (snd (read_file (easting_operator "survey.csv")
               (one_file two_good_rows) initial)) = [2; 3].
Proof. vm_compute. auto. Qed.

Example scenario_4 :
  execute (disto_operator "missing.csv") no_such_file empty_host
  = (bpy.CANCELLED,
     bpy.report bpy.ERROR
       "Failed to read CSV: [Errno 2] No such file or directory" empty_host).
Proof. vm_compute. reflexivity. Qed.

Example header_only :
  execute (disto_operator "survey.csv") (one_file [header_line]) empty_host
  = (bpy.CANCELLED, bpy.report bpy.ERROR no_valid_points_message empty_host).
Proof. vm_compute. reflexivity. Qed.

Example empty_file :
  execute (disto_operator "survey.csv") (one_file []) empty_host
  = (bpy.CANCELLED, bpy.report bpy.ERROR no_valid_points_message empty_host).
Proof. vm_compute. reflexivity. Qed.

Example quarter_turn_literal :
  builtins.float_of_str "1.5708" = Ok lit_1_5708.
Proof. vm_compute. reflexivity. Qed.

Example blank_line_shifts_the_number :
  skipped_lines
    (snd (read_file (disto_operator "survey.csv")
            (one_file blank_then_empty_field) initial)) = [2]
  /\ fst (csv.reader blank_then_empty_field None)
     = [(1, ["X [m]"; "Y [m]"; "Z [m]"]); (2, []); (3, ["1"; ""; "3"])].
Proof. vm_compute. auto. Qed.

(** * Instances *)

Lemma C1_instance :
  one_file empty_field_then_good_row "survey.csv"
  = opened empty_field_then_good_row None
  /\ read_file (disto_operator "survey.csv")
       (one_file empty_field_then_good_row) initial
     = (Ok tt, {| verts := [(four, five, six)]; skipped_lines := [2] |})
  /\ length [(four, five, six)] + length [2]
     = length (fst (csv.DictReader empty_field_then_good_row None)).
Proof.
  assert (H1 : one_file empty_field_then_good_row
                 (filepath (disto_operator "survey.csv"))
               = opened empty_field_then_good_row None) by reflexivity.
  assert (H2 : read_file (disto_operator "survey.csv")
                 (one_file empty_field_then_good_row) initial
               = (Ok tt, {| verts := [(four, five, six)];
                            skipped_lines := [2] |}))
    by (vm_compute; reflexivity).
  split; [exact H1|]. split; [exact H2|].
  exact (proj1 (C1_points_plus_skipped _ _ _ _ _ H1 H2)).
Defined.

Lemma C2_instance :
  one_file empty_field_then_good_row "survey.csv"
  = opened empty_field_then_good_row None
  /\ read_file (disto_operator "survey.csv")
       (one_file empty_field_then_good_row) initial
     = (Ok tt, {| verts := [(four, five, six)]; skipped_lines := [2] |})
  /\ [(four, five, six)]
     = spec_points (disto_operator "survey.csv")
         (fst (csv.DictReader empty_field_then_good_row None)).
Proof.
  assert (H1 : one_file empty_field_then_good_row
                 (filepath (disto_operator "survey.csv"))
               = opened empty_field_then_good_row None) by reflexivity.
  assert (H2 : read_file (disto_operator "survey.csv")
                 (one_file empty_field_then_good_row) initial
               = (Ok tt, {| verts := [(four, five, six)];
                            skipped_lines := [2] |}))
    by (vm_compute; reflexivity).
  split; [exact H1|]. split; [exact H2|].
  exact (proj1 (C2_rows_become_points_or_skipped _ _ _ _ _ H1 H2)).
Defined.

Lemma C3_instance :
  read_file (disto_operator "survey.csv") (one_file [header_line]) initial
  = (Ok tt, initial)
  /\ verts initial = []
  /\ execute (disto_operator "survey.csv") (one_file [header_line]) empty_host
     = (bpy.CANCELLED,
        bpy.report bpy.ERROR no_valid_points_message empty_host).
Proof.
  assert (H1 : read_file (disto_operator "survey.csv")
                 (one_file [header_line]) initial = (Ok tt, initial))
    by (vm_compute; reflexivity).
  assert (H2 : verts initial = []) by reflexivity.
  split; [exact H1|]. split; [exact H2|].
  exact (proj1 (C3_no_valid_points _ _ empty_host _ H1 H2)).
Defined.

Lemma C4_instance :
  (broken_after_two_lines "survey.csv"
   = opened [header_line; ln "1,2,3"]
       (Some (UnicodeDecodeError "invalid start byte"))
   /\ snd (csv.reader [header_line; ln "1,2,3"]
             (Some (UnicodeDecodeError "invalid start byte")))
      = Some (UnicodeDecodeError "invalid start byte"))
  /\ execute (disto_operator "survey.csv") broken_after_two_lines empty_host
     = (bpy.CANCELLED,
        bpy.report bpy.ERROR
          (io_failure_message (UnicodeDecodeError "invalid start byte"))
          empty_host).
Proof.
  assert (H : broken_after_two_lines "survey.csv"
              = opened [header_line; ln "1,2,3"]
                  (Some (UnicodeDecodeError "invalid start byte"))
              /\ snd (csv.reader [header_line; ln "1,2,3"]
                        (Some (UnicodeDecodeError "invalid start byte")))
                 = Some (UnicodeDecodeError "invalid start byte"))
    by (split; vm_compute; reflexivity).
  split; [exact H|].
  refine (proj1 (C4_io_failure (disto_operator "survey.csv")
                   broken_after_two_lines empty_host _ _)).
  right. eexists _, _. exact H.
Defined.

Lemma C5_instance :
  read_file (disto_operator "survey.csv") (one_file infinite_row) initial
  = (Ok tt, {| verts := [(S754_infinity false, bpy.one, two)];
               skipped_lines := [] |})
  /\ (S754_infinity false, bpy.one, two)
     ∈ [(S754_infinity false, bpy.one, two)]
  /\ exists lines input_end k row,
       one_file infinite_row "survey.csv" = opened lines input_end
       /\ fst (csv.DictReader lines input_end) !! k = Some row
       /\ parses_to (snd row) "X [m]" (S754_infinity false)
       /\ parses_to (snd row) "Y [m]" bpy.one
       /\ parses_to (snd row) "Z [m]" two.
Proof.
  assert (H1 : read_file (disto_operator "survey.csv")
                 (one_file infinite_row) initial
               = (Ok tt, {| verts := [(S754_infinity false, bpy.one, two)];
                            skipped_lines := [] |}))
    by (vm_compute; reflexivity).
  assert (H2 : (S754_infinity false, bpy.one, two)
               ∈ [(S754_infinity false, bpy.one, two)])
    by apply list_elem_of_here.
  split; [exact H1|]. split; [exact H2|].
  exact (C5_points_come_from_parsed_rows _ _ _ _ H1 H2).
Defined.

Lemma C7_instance :
  show_labels (disto_operator_with_labels "survey.csv") = true
  /\ fst (execute (disto_operator_with_labels "survey.csv")
            (one_file two_good_rows) empty_host) = bpy.FINISHED
  /\ exists labels,
       bpy.collection_objects
         (snd (execute (disto_operator_with_labels "survey.csv")
                 (one_file two_good_rows) empty_host))
       = mesh_object
           (verts (snd (read_file (disto_operator_with_labels "survey.csv")
                          (one_file two_good_rows) initial)))
         :: labels
       /\ length labels = 2.
Proof.
  assert (H1 : show_labels (disto_operator_with_labels "survey.csv") = true)
    by reflexivity.
  assert (H2 : fst (execute (disto_operator_with_labels "survey.csv")
                      (one_file two_good_rows) empty_host) = bpy.FINISHED)
    by (vm_compute; reflexivity).
  split; [exact H1|]. split; [exact H2|].
  destruct (C7_one_label_per_point _ _ empty_host H1 H2)
    as (labels & Hobjects & Hlen & _).
  exists labels. split; [exact Hobjects|].
  rewrite Hlen. vm_compute. reflexivity.
Defined.

Lemma C8_instance :
  read_file (disto_operator "survey.csv")
    (one_file blank_then_empty_field) initial
  = read_file (disto_operator "survey.csv")
      (one_file only_empty_field) initial.
Proof.
  refine (proj1 (proj1 (C8_blank_lines_are_not_counted
                          (disto_operator "survey.csv"))
                   (one_file blank_then_empty_field)
                   (one_file only_empty_field)
                   [header_line] (ln "") [ln "1,,3"] None _ _ _ _ _)).
  - discriminate.
  - eexists. split; vm_compute; reflexivity.
  - reflexivity.
  - reflexivity.
  - reflexivity.
Defined.

Lemma C9_instance :
  fst (execute (disto_operator "survey.csv") (one_file [header_line])
         empty_host)
  = fst (execute (disto_operator "missing.csv") no_such_file empty_host).
Proof.
  refine (proj1 (proj2 (C9_same_status_for_both_failures
                          (disto_operator "missing.csv") no_such_file
                          (disto_operator "survey.csv")
                          (one_file [header_line]) empty_host
                          (OSError "[Errno 2] No such file or directory")
                          initial initial _ _ _))).
  - vm_compute. reflexivity.
  - vm_compute. reflexivity.
  - reflexivity.
Defined.

Lemma C10_instance :
  execute (disto_operator "survey.csv")
    (one_file empty_field_then_good_row) empty_host
  = execute (other_label_settings "survey.csv")
      (one_file empty_field_then_good_row) empty_host.
Proof.
  refine (proj2 (C10_label_settings_unused_without_labels
                   (disto_operator "survey.csv")
                   (other_label_settings "survey.csv")
                   (one_file empty_field_then_good_row) empty_host
                   _ _ _ _ _ _)); reflexivity.
Defined.

(** * Further properties of [execute] *)

Lemma execute_finished_value self fs context st :
  read_file self fs initial = (Ok tt, st) ->
  verts st <> [] ->
  execute self fs context =
    (bpy.FINISHED,
     {| bpy.collection_objects :=
          bpy.collection_objects context
          ++ mesh_object (verts st)
          :: (if show_labels self
              then imap (fun i => label_of self i) (verts st) else []);
        bpy.reports :=
          bpy.reports context
          ++ [(bpy.INFO,
               "Imported " +:+ builtins.str_int (length (verts st))
               +:+ " points from "
               +:+ builtins.str_int
                     (length (verts st) + length (skipped_lines st))
               +:+ " lines."
               +:+ match skipped_lines st with
                   | [] => ""
                   | _ :: _ =>
                       " Skipped lines: " +:+ repr_int_list (skipped_lines st)
                   end)] |}).
Proof.
  intros Hread Hne. unfold execute. rewrite Hread.
  destruct (verts st) as [|v vs] eqn:Hv; [done|]. rewrite <- Hv.
  f_equal. destruct (show_labels self).
  - rewrite create_labels_spec. unfold bpy.report, bpy.link. simpl.
    by rewrite <- app_assoc.
  - reflexivity.
Qed.

Lemma spec_points_nonempty self (rows : list (nat * csv.dict)) :
  spec_points self rows <> [] <->
  exists k row x y z,
    rows !! k = Some row
    /\ parses_to (snd row) (x_column_name self) x
    /\ parses_to (snd row) (y_column_name self) y
    /\ parses_to (snd row) (z_column_name self) z.
Proof.
  split.
  - intros Hne. destruct (spec_points self rows) as [|v vs] eqn:Hpts; [done|].
    assert (Hv : v ∈ spec_points self rows) by (rewrite Hpts; left).
    apply elem_of_spec_points in Hv as (k & row & Hk & Hpoint).
    apply spec_row_point_Some_inv in Hpoint as (Hx & Hy & Hz).
    exists k, row, v.1.1, v.1.2, v.2. auto.
  - intros (k & row & x & y & z & Hk & Hx & Hy & Hz) Hnil.
    assert (Hv : (x, y, z) ∈ spec_points self rows).
    { apply elem_of_spec_points. exists k, row. split; [exact Hk|].
      by apply spec_row_point_parses. }
    rewrite Hnil in Hv. by apply elem_of_nil in Hv.
Qed.

(** X1: [execute] returns [FINISHED] exactly when the file opens, the
    reader raises nothing, and at least one data row has its three
    configured columns present, not blank and accepted by [float]. *)
Theorem X1_finished_iff_a_row_parses self fs context :
  fst (execute self fs context) = bpy.FINISHED <->
  exists lines input_end,
    fs (filepath self) = opened lines input_end
    /\ snd (csv.reader lines input_end) = None
    /\ exists k row x y z,
         fst (csv.DictReader lines input_end) !! k = Some row
         /\ parses_to (snd row) (x_column_name self) x
         /\ parses_to (snd row) (y_column_name self) y
         /\ parses_to (snd row) (z_column_name self) z.
Proof.
  split.
  - intros Hfin.
    destruct (execute_FINISHED_inv _ _ _ Hfin) as (st & Hread & Hne).
    destruct (read_file_ok_inv _ _ _ Hread)
      as (lines & input_end & Hfs & Hend & Hverts & _).
    exists lines, input_end. split; [exact Hfs|]. split; [exact Hend|].
    apply spec_points_nonempty. by rewrite <- Hverts.
  - intros (lines & input_end & Hfs & Hend & Hrow).
    pose proof (read_file_opened self fs lines input_end Hfs) as Hread.
    rewrite Hend in Hread.
    apply spec_points_nonempty in Hrow.
    by rewrite (execute_finished_value _ _ _ _ Hread Hrow).
Qed.


(** X3: the report of a finished import counts the Points and, as total,
    the data rows the reader yielded; the list of skipped line numbers is
    left out of the text exactly when every data row gave a Point. *)
Theorem X3_summary_counts_points_and_rows self fs lines input_end context :
  fs (filepath self) = opened lines input_end ->
  fst (execute self fs context) = bpy.FINISHED ->
  let st := snd (read_file self fs initial) in
  let rows := fst (csv.DictReader lines input_end) in
  bpy.reports (snd (execute self fs context)) =
    bpy.reports context
    ++ [(bpy.INFO,
         "Imported " +:+ builtins.str_int (length (verts st))
         +:+ " points from " +:+ builtins.str_int (length rows)
         +:+ " lines."
         +:+ (if decide (length (verts st) = length rows) then ""
              else " Skipped lines: " +:+ repr_int_list (skipped_lines st)))].
Proof.
  intros Hfs Hfin st rows.
  destruct (execute_FINISHED_inv _ _ _ Hfin) as (st' & Hread & Hne).
  subst st. rewrite Hread. cbn [snd].
  rewrite (execute_finished_value _ _ _ _ Hread Hne). cbn [snd bpy.reports].
  assert (Hlen : length (verts st') + length (skipped_lines st')
                 = length rows).
  { rewrite (read_file_opened _ _ _ _ Hfs) in Hread.
    injection Hread as _ <-. apply length_spec_points_skipped. }
  rewrite Hlen. do 4 f_equal.
  destruct (skipped_lines st') as [|n ns] eqn:Hsk; simpl in Hlen.
  - rewrite decide_True by lia. reflexivity.
  - rewrite decide_False by lia. reflexivity.
Qed.

(** * Further properties of the rows *)

Lemma lookup_zip_absent (fieldnames row : list string) (d : csv.dict) key :
  key ∉ fieldnames ->
  foldl (fun d kv => <[Some (fst kv) := csv.Str (snd kv)]> d) d
        (zip fieldnames row) !! Some key
  = d !! Some key.
Proof.
  revert row d. induction fieldnames as [|a f IH]; intros row d Hnot.
  - reflexivity.
  - destruct row as [|b row]; [reflexivity|]. simpl.
    apply not_elem_of_cons in Hnot as [Hne Hnot].
    rewrite IH by exact Hnot. rewrite lookup_insert_ne; [reflexivity|].
    congruence.
Qed.

Lemma lookup_zip_at (fieldnames row : list string) (d : csv.dict) i key v :
  NoDup fieldnames ->
  fieldnames !! i = Some key ->
  row !! i = Some v ->
  foldl (fun d kv => <[Some (fst kv) := csv.Str (snd kv)]> d) d
        (zip fieldnames row) !! Some key
  = Some (csv.Str v).
Proof.
  revert row d i. induction fieldnames as [|a f IH]; intros row d i Hnd Hk Hv.
  - discriminate.
  - destruct row as [|b row]; [discriminate|]. simpl.
    apply NoDup_cons in Hnd as [Ha Hnd].
    destruct i as [|i]; simpl in Hk, Hv.
    + injection Hk as ->. injection Hv as ->.
      rewrite lookup_zip_absent by exact Ha. apply lookup_insert_eq.
    + by apply (IH row _ i).
Qed.

Lemma lookup_restval_absent (keys : list string) (d : csv.dict) key :
  key ∉ keys ->
  foldl (fun d k => <[Some k := csv.NoneVal]> d) d keys !! Some key
  = d !! Some key.
Proof.
  revert d. induction keys as [|a keys IH]; intros d Hnot; [reflexivity|].
  simpl. apply not_elem_of_cons in Hnot as [Hne Hnot].
  rewrite IH by exact Hnot. rewrite lookup_insert_ne; [reflexivity|].
  congruence.
Qed.

Lemma lookup_restval_present (keys : list string) (d : csv.dict) key :
  key ∈ keys ->
  foldl (fun d k => <[Some k := csv.NoneVal]> d) d keys !! Some key
  = Some csv.NoneVal.
Proof.
  revert d. induction keys as [|a keys IH]; intros d Hin.
  - by apply elem_of_nil in Hin.
  - simpl. destruct (decide (key ∈ keys)) as [Hk|Hk]; [by apply IH|].
    apply elem_of_cons in Hin as [->|Hin]; [|done].
    rewrite lookup_restval_absent by exact Hk. apply lookup_insert_eq.
Qed.

(** A name the header lacks reads as [None] in every row. *)
Lemma get_absent_name (fieldnames row : list string) key :
  key ∉ fieldnames ->
  csv.get (csv.make_row fieldnames row) key = csv.NoneVal.
Proof.
  intros Hnot. unfold csv.get, csv.make_row, csv.dict_of_zip.
  destruct (_ <? _)%nat.
  - rewrite lookup_insert_ne by discriminate.
    rewrite lookup_zip_absent by exact Hnot. by rewrite lookup_empty.
  - destruct (_ <? _)%nat.
    + rewrite lookup_restval_absent.
      * rewrite lookup_zip_absent by exact Hnot. by rewrite lookup_empty.
      * intros Hin. apply Hnot. eapply subseteq_drop. exact Hin.
    + rewrite lookup_zip_absent by exact Hnot. by rewrite lookup_empty.
Qed.

(** A name whose place in the header is beyond the end of the record
    reads as [None]. *)
Lemma get_beyond_record (fieldnames row : list string) key :
  key ∈ drop (length row) fieldnames ->
  csv.get (csv.make_row fieldnames row) key = csv.NoneVal.
Proof.
  intros Hin. unfold csv.get, csv.make_row.
  assert (Hlen : length row < length fieldnames).
  { destruct (decide (length row < length fieldnames)) as [|Hge]; [done|].
    rewrite drop_ge in Hin by lia. by apply elem_of_nil in Hin. }
  rewrite (proj2 (Nat.ltb_ge _ _)) by lia.
  rewrite (proj2 (Nat.ltb_lt _ _)) by lia.
  by rewrite lookup_restval_present.
Qed.

(** With distinct names in the header, the name at a place reads as the
    field of the record at that place. *)
Lemma get_field_at (fieldnames row : list string) i key v :
  NoDup fieldnames ->
  fieldnames !! i = Some key ->
  row !! i = Some v ->
  csv.get (csv.make_row fieldnames row) key = csv.Str v.
Proof.
  intros Hnd Hk Hv. unfold csv.get, csv.make_row, csv.dict_of_zip.
  destruct (_ <? _)%nat.
  - rewrite lookup_insert_ne by discriminate.
    by rewrite (lookup_zip_at _ _ _ i key v).
  - destruct (_ <? _)%nat.
    + rewrite lookup_restval_absent.
      * by rewrite (lookup_zip_at _ _ _ i key v).
      * intros (j & Hj)%list_elem_of_lookup. rewrite lookup_drop in Hj.
        pose proof (NoDup_lookup _ _ _ _ Hnd Hk Hj) as Hij.
        apply lookup_lt_Some in Hv. lia.
    + by rewrite (lookup_zip_at _ _ _ i key v).
Qed.

Lemma zip_app_beyond (fieldnames row extra : list string) :
  length fieldnames <= length row ->
  zip fieldnames (row ++ extra) = zip fieldnames row.
Proof.
  revert row. induction fieldnames as [|a f IH]; intros row Hlen.
  - reflexivity.
  - destruct row as [|b row]; simpl in Hlen; [lia|]. simpl.
    rewrite IH by lia. reflexivity.
Qed.

(** Fields beyond the header change nothing under the header's names. *)
Lemma get_extra_fields (fieldnames row extra : list string) key :
  length fieldnames <= length row ->
  csv.get (csv.make_row fieldnames (row ++ extra)) key
  = csv.get (csv.make_row fieldnames row) key.
Proof.
  intros Hlen. unfold csv.get, csv.make_row, csv.dict_of_zip.
  rewrite zip_app_beyond by exact Hlen. rewrite length_app.
  assert (H1 : (length row + length extra <? length fieldnames)%nat = false)
    by (apply Nat.ltb_ge; lia).
  assert (H2 : (length row <? length fieldnames)%nat = false)
    by (apply Nat.ltb_ge; lia).
  rewrite H1, H2.
  destruct (length fieldnames <? length row + length extra)%nat,
           (length fieldnames <? length row)%nat;
    rewrite ?lookup_insert_ne by discriminate; reflexivity.
Qed.

(** The loop body reads a row through its three configured columns
    only. *)
Lemma loop_body_get_ext self line_num (row1 row2 : csv.dict) :
  csv.get row1 (x_column_name self) = csv.get row2 (x_column_name self) ->
  csv.get row1 (y_column_name self) = csv.get row2 (y_column_name self) ->
  csv.get row1 (z_column_name self) = csv.get row2 (z_column_name self) ->
  loop_body self line_num row1 = loop_body self line_num row2.
Proof. intros Hx Hy Hz. unfold loop_body. by rewrite Hx, Hy, Hz. Qed.

Lemma loop_body_None_column self line_num (row : csv.dict) st :
  csv.get row (x_column_name self) = csv.NoneVal
  \/ csv.get row (y_column_name self) = csv.NoneVal
  \/ csv.get row (z_column_name self) = csv.NoneVal ->
  loop_body self line_num row st = (Ok tt, push_skipped line_num st).
Proof.
  intros H. unfold loop_body, try_except, bind, missing_coordinate, or_else.
  destruct H as [->|[->| ->]]; simpl.
  - reflexivity.
  - unfold bind, ret. simpl.
    by destruct (is_None (csv.get row (x_column_name self))).
  - unfold bind, ret. simpl.
    destruct (is_None (csv.get row (x_column_name self))); [done|].
    by destruct (is_None (csv.get row (y_column_name self))).
Qed.

Lemma column_text_of_get_None (row : csv.dict) key :
  csv.get row key = csv.NoneVal -> column_text row key = None.
Proof.
  unfold csv.get, column_text.
  destruct (row !! Some key) as [[s| |l]|]; try reflexivity. discriminate.
Qed.

Lemma column_text_of_get_Str (row : csv.dict) key s :
  csv.get row key = csv.Str s -> column_text row key = Some s.
Proof.
  unfold csv.get, column_text.
  destruct (row !! Some key) as [[s'| |l]|]; try discriminate.
  by intros [= ->].
Qed.

Lemma spec_row_point_None_column self (row : csv.dict) :
  csv.get row (x_column_name self) = csv.NoneVal
  \/ csv.get row (y_column_name self) = csv.NoneVal
  \/ csv.get row (z_column_name self) = csv.NoneVal ->
  spec_row_point self row = None.
Proof.
  intros H. apply spec_row_point_unusable.
  destruct H as [H|[H|H]]; apply column_text_of_get_None in H;
    [left|right; left|right; right]; by left.
Qed.

Lemma all_rows_skipped self (rows : list (nat * csv.dict)) start :
  Forall (fun row => spec_row_point self (snd row) = None) rows ->
  spec_points self rows = []
  /\ omap (skipped_of self) (enumerate rows start) = seq start (length rows).
Proof.
  intros Hall. revert start.
  induction Hall as [|row rows Hrow _ IH]; intros start; [by split|].
  destruct (IH (S start)) as [IHp IHs]. split.
  - unfold spec_points in *. cbn. by rewrite Hrow.
  - rewrite skipped_of_cons, Hrow, IHs. reflexivity.
Qed.

Lemma execute_CANCELLED_without_points self fs context :
  verts (snd (read_file self fs initial)) = [] ->
  fst (execute self fs context) = bpy.CANCELLED.
Proof.
  intros Hv. destruct (read_file self fs initial) as [[[]|e] st] eqn:Hread.
  - by rewrite (execute_no_valid_points _ _ _ _ Hread Hv).
  - by rewrite (execute_io_failure _ _ _ _ _ Hread).
Qed.

(** X4: when the header lacks one of the three configured column names,
    no row gives a Point: every data row is skipped, its line number
    recorded, and [execute] returns [CANCELLED]. *)
Theorem X4_column_missing_from_header
    self fs lines input_end (p : nat) (fieldnames : list string)
    (rest : list csv.record) :
  fs (filepath self) = opened lines input_end ->
  fst (csv.reader lines input_end) = (p, fieldnames) :: rest ->
  x_column_name self ∉ fieldnames \/ y_column_name self ∉ fieldnames
  \/ z_column_name self ∉ fieldnames ->
  let st := snd (read_file self fs initial) in
  verts st = []
  /\ skipped_lines st
     = seq 2 (length (fst (csv.DictReader lines input_end)))
  /\ forall context, fst (execute self fs context) = bpy.CANCELLED.
Proof.
  intros Hfs Hrecs Hmissing st.
  assert (Hall : Forall (fun row => spec_row_point self (snd row) = None)
                   (fst (csv.DictReader lines input_end))).
  { unfold csv.DictReader. cbn [fst]. rewrite Hrecs. simpl.
    apply Forall_forall. intros row Hin.
    apply list_elem_of_In, in_map_iff in Hin as (rec & <- & _). simpl.
    apply spec_row_point_None_column.
    destruct Hmissing as [H|[H|H]];
      [left|right; left|right; right]; by apply get_absent_name. }
  destruct (all_rows_skipped _ _ 2 Hall) as [Hpoints Hskipped].
  assert (Hst : verts st = [] /\ skipped_lines st
                = seq 2 (length (fst (csv.DictReader lines input_end)))).
  { subst st. rewrite (read_file_opened _ _ _ _ Hfs). simpl.
    split; [exact Hpoints|exact Hskipped]. }
  destruct Hst as [Hv Hs]. split; [exact Hv|]. split; [exact Hs|].
  intros context. by apply execute_CANCELLED_without_points.
Qed.

Lemma parses_to_of_field (fieldnames row : list string) i key x :
  NoDup fieldnames ->
  fieldnames !! i = Some key ->
  field_parses row i x ->
  parses_to (csv.make_row fieldnames row) key x.
Proof.
  intros Hnd Hk (s & Hs & Hne & Hx). exists s.
  split; [|by split].
  apply column_text_of_get_Str. by apply (get_field_at _ _ i).
Qed.

(** X5: with distinct names in the header, a record whose fields at the
    places of the three configured names parse to [x], [y] and [z] makes
    the loop body append the Point [(x, y, z)] and no line number,
    whatever else the record holds. *)
Theorem X5_record_with_three_numbers_gives_point
    self line_num (fieldnames row : list string) ix iy iz x y z st :
  NoDup fieldnames ->
  fieldnames !! ix = Some (x_column_name self) ->
  fieldnames !! iy = Some (y_column_name self) ->
  fieldnames !! iz = Some (z_column_name self) ->
  field_parses row ix x ->
  field_parses row iy y ->
  field_parses row iz z ->
  loop_body self line_num (csv.make_row fieldnames row) st
  = (Ok tt, push_point (x, y, z) st).
Proof.
  intros Hnd Hix Hiy Hiz Hx Hy Hz.
  rewrite loop_body_spec by apply make_row_names_hold_text.
  rewrite (spec_row_point_parses self _ x y z);
    [reflexivity|by eapply parses_to_of_field..].
Qed.

(** X6: a record too short to reach the place of one of the three
    configured names is skipped: the loop body appends its line number and
    no Point. *)
Theorem X6_short_record_is_skipped
    self line_num (fieldnames row : list string) column st :
  column = x_column_name self \/ column = y_column_name self
  \/ column = z_column_name self ->
  column ∈ drop (length row) fieldnames ->
  loop_body self line_num (csv.make_row fieldnames row) st
  = (Ok tt, push_skipped line_num st).
Proof.
  intros Hcol Hin. apply loop_body_None_column.
  apply get_beyond_record in Hin.
  destruct Hcol as [<-|[<-|<-]]; auto.
Qed.

(** X7: fields beyond the end of the header are ignored: a record at
    least as long as the header is handled the same with more fields
    after it. *)
Theorem X7_fields_beyond_header_are_ignored
    self line_num (fieldnames row extra : list string) :
  length fieldnames <= length row ->
  loop_body self line_num (csv.make_row fieldnames (row ++ extra))
  = loop_body self line_num (csv.make_row fieldnames row).
Proof.
  intros Hlen. apply loop_body_get_ext; by apply get_extra_fields.
Qed.

(** * White space around the values *)

Lemma lstrip_whitespace ws s :
  whitespace ws = true ->
  builtins.lstrip (ws +:+ s) = builtins.lstrip s.
Proof.
  unfold whitespace. induction ws as [|c ws IH]; simpl; [done|].
  intros [Hc Hws]%andb_true_iff. rewrite Hc. by apply IH.
Qed.

Lemma rstrip_whitespace ws :
  whitespace ws = true -> builtins.rstrip ws = "".
Proof.
  unfold whitespace. induction ws as [|c ws IH]; simpl; [done|].
  intros [Hc Hws]%andb_true_iff. rewrite (IH Hws). by rewrite Hc.
Qed.

Lemma rstrip_pad s ws :
  whitespace ws = true ->
  builtins.rstrip (s +:+ ws) = builtins.rstrip s.
Proof.
  intros Hws. induction s as [|c s IH]; simpl.
  - by apply rstrip_whitespace.
  - by rewrite IH.
Qed.

Lemma lstrip_all_whitespace ws :
  whitespace ws = true -> builtins.lstrip ws = "".
Proof.
  unfold whitespace. induction ws as [|c ws IH]; simpl; [done|].
  intros [Hc Hws]%andb_true_iff. rewrite Hc. by apply IH.
Qed.

Lemma strip_pad_right s ws :
  whitespace ws = true ->
  builtins.strip (s +:+ ws) = builtins.strip s.
Proof.
  intros Hws. unfold builtins.strip. induction s as [|c s IH].
  - change ("" +:+ ws) with ws.
    by rewrite (lstrip_all_whitespace ws Hws).
  - simpl. destruct (builtins.isspace c); [exact IH|].
    change (String c (s +:+ ws)) with (String c s +:+ ws).
    by apply rstrip_pad.
Qed.

Lemma strip_padded s s' :
  padded s s' -> builtins.strip s' = builtins.strip s.
Proof.
  intros (before & after & Hb & Ha & ->).
  unfold builtins.strip at 1. rewrite lstrip_whitespace by exact Hb.
  by apply strip_pad_right.
Qed.

Lemma same_up_to_padding_insert_str (d d' : csv.dict) k s s' :
  (forall key, same_up_to_padding (d !! Some key) (d' !! Some key)) ->
  padded s s' ->
  forall key,
    same_up_to_padding (<[Some k := csv.Str s]> d !! Some key)
                       (<[Some k := csv.Str s']> d' !! Some key).
Proof.
  intros Hd Hs key. rewrite !lookup_insert.
  case_decide; [exact Hs|apply Hd].
Qed.

Lemma same_up_to_padding_insert_none (d d' : csv.dict) k :
  (forall key, same_up_to_padding (d !! Some key) (d' !! Some key)) ->
  forall key,
    same_up_to_padding (<[Some k := csv.NoneVal]> d !! Some key)
                       (<[Some k := csv.NoneVal]> d' !! Some key).
Proof.
  intros Hd key. rewrite !lookup_insert.
  case_decide; [exact I|apply Hd].
Qed.

Lemma same_up_to_padding_zip (fieldnames row row' : list string)
    (d d' : csv.dict) :
  Forall2 padded row row' ->
  (forall key, same_up_to_padding (d !! Some key) (d' !! Some key)) ->
  forall key,
    same_up_to_padding
      (foldl (fun d kv => <[Some (fst kv) := csv.Str (snd kv)]> d) d
             (zip fieldnames row) !! Some key)
      (foldl (fun d kv => <[Some (fst kv) := csv.Str (snd kv)]> d) d'
             (zip fieldnames row') !! Some key).
Proof.
  intros Hrows. revert fieldnames d d'.
  induction Hrows as [|s s' row row' Hs _ IH]; intros fieldnames d d' Hd.
  - destruct fieldnames; exact Hd.
  - destruct fieldnames as [|k f]; [exact Hd|]. simpl.
    apply IH. by apply same_up_to_padding_insert_str.
Qed.

Lemma same_up_to_padding_restval (keys : list string) (d d' : csv.dict) :
  (forall key, same_up_to_padding (d !! Some key) (d' !! Some key)) ->
  forall key,
    same_up_to_padding
      (foldl (fun d k => <[Some k := csv.NoneVal]> d) d keys !! Some key)
      (foldl (fun d k => <[Some k := csv.NoneVal]> d) d' keys !! Some key).
Proof.
  revert d d'. induction keys as [|k keys IH]; intros d d' Hd; [exact Hd|].
  simpl. apply IH. by apply same_up_to_padding_insert_none.
Qed.

Lemma make_row_padded (fieldnames row row' : list string) :
  Forall2 padded row row' ->
  forall key,
    same_up_to_padding (csv.make_row fieldnames row !! Some key)
                       (csv.make_row fieldnames row' !! Some key).
Proof.
  intros Hrows key. unfold csv.make_row, csv.dict_of_zip.
  rewrite <- (Forall2_length _ _ _ Hrows).
  assert (Hzip := same_up_to_padding_zip fieldnames row row' ∅ ∅ Hrows).
  destruct (length fieldnames <? length row)%nat.
  - rewrite !lookup_insert_ne by discriminate. apply Hzip.
    intros k. by rewrite lookup_empty.
  - destruct (length row <? length fieldnames)%nat.
    + apply same_up_to_padding_restval. apply Hzip.
      intros k. by rewrite lookup_empty.
    + apply Hzip. intros k. by rewrite lookup_empty.
Qed.

Lemma get_same_up_to_padding (row row' : csv.dict) key :
  same_up_to_padding (row !! Some key) (row' !! Some key) ->
  (csv.get row key = csv.NoneVal /\ csv.get row' key = csv.NoneVal)
  \/ exists s s', csv.get row key = csv.Str s /\ csv.get row' key = csv.Str s'
                  /\ builtins.strip s' = builtins.strip s.
Proof.
  unfold csv.get, same_up_to_padding.
  destruct (row !! Some key) as [[s| |l]|],
           (row' !! Some key) as [[s'| |l']|]; try done; try (by left).
  intros Hs. right. exists s, s'. by rewrite (strip_padded _ _ Hs).
Qed.

Lemma loop_body_same_up_to_padding self line_num (row row' : csv.dict) st :
  (forall key, same_up_to_padding (row !! Some key) (row' !! Some key)) ->
  loop_body self line_num row' st = loop_body self line_num row st.
Proof.
  intros Hrel.
  destruct (get_same_up_to_padding _ _ _ (Hrel (x_column_name self)))
    as [[Hx Hx']|(sx & sx' & Hx & Hx' & Ex)].
  { rewrite !loop_body_None_column by auto. reflexivity. }
  destruct (get_same_up_to_padding _ _ _ (Hrel (y_column_name self)))
    as [[Hy Hy']|(sy & sy' & Hy & Hy' & Ey)].
  { rewrite !loop_body_None_column by auto. reflexivity. }
  destruct (get_same_up_to_padding _ _ _ (Hrel (z_column_name self)))
    as [[Hz Hz']|(sz & sz' & Hz & Hz' & Ez)].
  { rewrite !loop_body_None_column by auto. reflexivity. }
  unfold loop_body, missing_coordinate, or_else, strip_is_empty,
    float_strip, value_strip.
  rewrite Hx, Hx', Hy, Hy', Hz, Hz'. unfold try_except, bind, ret, lift.
  simpl. rewrite Ex, Ey, Ez. reflexivity.
Qed.

(** X8: white space before and after the fields of a record does not
    change what the loop body does with it: same Point, or skipped the
    same. *)
Theorem X8_white_space_around_fields_is_ignored
    self line_num (fieldnames row row' : list string) st :
  Forall2 padded row row' ->
  loop_body self line_num (csv.make_row fieldnames row') st
  = loop_body self line_num (csv.make_row fieldnames row) st.
Proof.
  intros Hrows. apply loop_body_same_up_to_padding.
  by apply make_row_padded.
Qed.

(** * The reader on lines of plain fields *)

Lemma list_ascii_of_string_app s t :
  list_ascii_of_string (s +:+ t)
  = list_ascii_of_string s ++ list_ascii_of_string t.
Proof. induction s as [|c s IH]; simpl; [reflexivity|by rewrite IH]. Qed.

Lemma process_chars_app r cs1 cs2 :
  csv.process_chars r (cs1 ++ cs2)
  = match csv.process_chars r cs1 with
    | Ok r' => csv.process_chars r' cs2
    | Raise e => Raise e
    end.
Proof.
  revert r. induction cs1 as [|c cs1 IH]; intros r; simpl; [reflexivity|].
  destruct (csv.parse_process_char r (Some c)); [apply IH|reflexivity].
Qed.

Lemma plain_char_inv c :
  plain_char c = true ->
  csv.is_newline c = false
  /\ (exists H, ascii_dec c csv.quotechar = right H)
  /\ (exists H, ascii_dec c csv.delimiter = right H).
Proof.
  unfold plain_char.
  destruct (csv.is_newline c); [discriminate|].
  destruct (ascii_dec c csv.quotechar); [discriminate|].
  destruct (ascii_dec c csv.delimiter); [discriminate|]. eauto.
Qed.

Lemma parse_plain_char flds f fl s n c :
  plain_char c = true ->
  unquoted s ->
  (fl < csv.field_limit)%N ->
  csv.parse_process_char (csv.Build_ReaderObj flds f fl s n) (Some c)
  = Ok (csv.Build_ReaderObj flds (c :: f) (fl + 1) csv.IN_FIELD n).
Proof.
  intros (Hnl & [Hq Eq] & [Hd Ed])%plain_char_inv Hs Hfl.
  apply N.leb_gt in Hfl.
  unfold csv.parse_process_char, csv.add_char_then, csv.parse_add_char.
  destruct Hs as [->|[->| ->]]; simpl; rewrite Hnl, ?Eq, Ed; simpl;
    by rewrite Hfl.
Qed.

Lemma parse_plain_char_overflow flds f fl s n c :
  plain_char c = true ->
  unquoted s ->
  (csv.field_limit <= fl)%N ->
  csv.parse_process_char (csv.Build_ReaderObj flds f fl s n) (Some c)
  = Raise field_limit_error.
Proof.
  intros (Hnl & [Hq Eq] & [Hd Ed])%plain_char_inv Hs Hfl.
  apply N.leb_le in Hfl.
  unfold csv.parse_process_char, csv.add_char_then, csv.parse_add_char.
  destruct Hs as [->|[->| ->]]; simpl; rewrite Hnl, ?Eq, Ed; simpl;
    by rewrite Hfl.
Qed.

(** Plain characters go to the field being read. *)
Lemma process_plain_chars cs flds f fl s n :
  forallb plain_char cs = true ->
  unquoted s ->
  (fl + N.of_nat (length cs) <= csv.field_limit)%N ->
  csv.process_chars (csv.Build_ReaderObj flds f fl s n) cs
  = Ok (csv.Build_ReaderObj flds (rev cs ++ f) (fl + N.of_nat (length cs))
          (match cs with [] => s | _ :: _ => csv.IN_FIELD end) n).
Proof.
  revert f fl s. induction cs as [|c cs IH]; intros f fl s Hcs Hs Hfl.
  - simpl. by rewrite N.add_0_r.
  - apply andb_true_iff in Hcs as [Hc Hcs]. cbn [csv.process_chars].
    rewrite parse_plain_char by (try done; simpl length in Hfl; lia).
    rewrite IH; [|exact Hcs|right; by right|simpl length in Hfl; lia].
    f_equal. f_equal.
    + simpl. by rewrite <- app_assoc.
    + simpl length. lia.
    + by destruct cs.
Qed.

(** More plain characters than a field may hold make the reader raise. *)
Lemma process_overlong_chars cs tail flds f fl s n :
  forallb plain_char cs = true ->
  unquoted s ->
  (fl <= csv.field_limit)%N ->
  (csv.field_limit < fl + N.of_nat (length cs))%N ->
  csv.process_chars (csv.Build_ReaderObj flds f fl s n) (cs ++ tail)
  = Raise field_limit_error.
Proof.
  revert f fl s. induction cs as [|c cs IH]; intros f fl s Hcs Hs Hle Hgt.
  - simpl in Hgt. lia.
  - apply andb_true_iff in Hcs as [Hc Hcs]. cbn [app csv.process_chars].
    destruct (decide (csv.field_limit <= fl)%N) as [Hfull|Hroom].
    + by rewrite parse_plain_char_overflow.
    + rewrite parse_plain_char by (try done; lia).
      apply IH; [exact Hcs|right; by right|lia|simpl length in Hgt; lia].
Qed.

Lemma parse_delimiter flds f fl s n :
  unquoted s ->
  csv.parse_process_char (csv.Build_ReaderObj flds f fl s n)
    (Some csv.delimiter)
  = Ok (csv.Build_ReaderObj (flds ++ [string_of_list_ascii (rev f)]) [] 0
          csv.START_FIELD n).
Proof. intros [->|[->| ->]]; reflexivity. Qed.

(** The end of a line after a field: the terminator, if any, then the
    end-of-line mark. *)
Lemma process_end_of_line eol flds f fl s n :
  forallb csv.is_newline eol = true ->
  s = csv.START_FIELD \/ s = csv.IN_FIELD ->
  match csv.process_chars (csv.Build_ReaderObj flds f fl s n) eol with
  | Ok r => csv.parse_process_char r None
  | Raise e => Raise e
  end
  = Ok (csv.Build_ReaderObj (flds ++ [string_of_list_ascii (rev f)]) [] 0
          csv.START_RECORD n).
Proof.
  intros Heol Hs. destruct eol as [|c eol].
  - simpl. destruct Hs as [-> | ->]; reflexivity.
  - apply andb_true_iff in Heol as [Hc Heol]. cbn [csv.process_chars].
    assert (Hstep :
      csv.parse_process_char (csv.Build_ReaderObj flds f fl s n) (Some c)
      = Ok (csv.Build_ReaderObj (flds ++ [string_of_list_ascii (rev f)]) [] 0
              csv.EAT_CRNL n)).
    { unfold csv.parse_process_char. destruct Hs as [-> | ->]; simpl;
        by rewrite Hc. }
    rewrite Hstep.
    edestruct (process_chars_newlines
                 (csv.Build_ReaderObj (flds ++ [string_of_list_ascii (rev f)])
                    [] 0 csv.EAT_CRNL n) eol Heol) as (s' & Hs' & ->).
    { by right. }
    destruct Hs' as [-> | ->]; reflexivity.
Qed.

Lemma list_ascii_of_string_nil s : list_ascii_of_string s = [] -> s = "".
Proof. by destruct s. Qed.

Lemma field_of_chars s flds :
  flds ++ [string_of_list_ascii (rev (rev (list_ascii_of_string s) ++ []))]
  = flds ++ [s].
Proof.
  by rewrite app_nil_r, rev_involutive, string_of_list_ascii_of_string.
Qed.

(** The fields of a line, then its end, read from the start of a record
    or of a field. *)
Lemma process_fields (fields : list string) eol flds s n :
  Forall plain_field fields ->
  fields <> [] ->
  forallb csv.is_newline eol = true ->
  s = csv.START_FIELD \/ (s = csv.START_RECORD /\ fields <> [""]) ->
  match csv.process_chars (csv.Build_ReaderObj flds [] 0 s n)
          (list_ascii_of_string (String.concat "," fields) ++ eol) with
  | Ok r => csv.parse_process_char r None
  | Raise e => Raise e
  end
  = Ok (csv.Build_ReaderObj (flds ++ fields) [] 0 csv.START_RECORD n).
Proof.
  intros Hplain. revert flds s.
  induction Hplain as [|f1 rest [Hchars Hlen] Hrest IH];
    intros flds s Hne Heol Hs; [done|].
  assert (Hunq : unquoted s).
  { destruct Hs as [->|[-> _]]; [right; by left|by left]. }
  destruct rest as [|f2 rest].
  - cbn [String.concat]. rewrite process_chars_app.
    rewrite process_plain_chars by (try done; by rewrite N.add_0_l).
    rewrite process_end_of_line; [by rewrite field_of_chars|exact Heol|].
    destruct (list_ascii_of_string f1) as [|c cs] eqn:Hf1; [|by right].
    apply list_ascii_of_string_nil in Hf1. subst f1.
    destruct Hs as [->|[_ Hs]]; [by left|done].
  - change (String.concat "," (f1 :: f2 :: rest))
      with (f1 +:+ String csv.delimiter (String.concat "," (f2 :: rest))).
    rewrite list_ascii_of_string_app. cbn [list_ascii_of_string].
    rewrite <- app_assoc, process_chars_app.
    rewrite process_plain_chars by (try done; by rewrite N.add_0_l).
    cbn [app csv.process_chars].
    rewrite parse_delimiter by (destruct (list_ascii_of_string f1);
                                 [exact Hunq|right; by right]).
    rewrite field_of_chars.
    rewrite (IH (flds ++ [f1]) csv.START_FIELD); [|done|exact Heol|by left].
    by rewrite <- app_assoc.
Qed.

(** The line of a writable record, read from the start of a record, gives
    the record back. *)
Lemma process_line_writable (fields : list string) eol n :
  writable fields ->
  blank_line eol = true ->
  csv.process_line (csv.Build_ReaderObj [] [] 0 csv.START_RECORD n)
    (csv_line fields eol)
  = Ok (csv.Build_ReaderObj fields [] 0 csv.START_RECORD (S n)).
Proof.
  intros (Hplain & Hne & Hnot_blank) Heol.
  unfold csv.process_line, csv_line. simpl.
  rewrite list_ascii_of_string_app.
  rewrite (process_fields fields _ [] csv.START_RECORD (S n));
    [reflexivity|exact Hplain|exact Hne|exact Heol|by right].
Qed.

Lemma reader_from_text_lines (recs : list (list string * string)) n :
  Forall (fun re => writable (fst re) /\ blank_line (snd re) = true) recs ->
  csv.reader_from (csv.Build_ReaderObj [] [] 0 csv.START_RECORD n)
    (text_lines recs) None
  = (numbered (S n) recs, None).
Proof.
  intros Hall. revert n.
  induction Hall as [|[fields eol] recs [Hw Heol] _ IH]; intros n.
  - reflexivity.
  - cbn [text_lines map csv.reader_from fst snd].
    rewrite (process_line_writable fields eol n Hw Heol).
    cbn [csv.state csv.ParserState_eqb csv.line_num csv.fields].
    change (csv.parse_reset
              (csv.Build_ReaderObj fields [] 0 csv.START_RECORD (S n)))
      with (csv.Build_ReaderObj [] [] 0 csv.START_RECORD (S n)).
    fold (text_lines recs). rewrite IH. reflexivity.
Qed.

(** X9: the reader gives back what was written: from lines made of plain
    fields joined by commas and ended by any mix of CR and LF (or by
    nothing), it yields the records, one per line and numbered from 1,
    and raises nothing. *)
Theorem X9_reader_gives_back_plain_records
    (recs : list (list string * string)) :
  Forall (fun re => writable (fst re) /\ blank_line (snd re) = true) recs ->
  csv.reader (text_lines recs) None = (numbered 1 recs, None).
Proof. intros Hall. by apply reader_from_text_lines. Qed.

(** * Whole files *)

Lemma filter_numbered_writable (recs : list (list string * string)) n :
  Forall (fun re => writable (fst re) /\ blank_line (snd re) = true) recs ->
  filter (fun rec => csv.is_blank_record rec = false) (numbered n recs)
  = numbered n recs.
Proof.
  intros Hall. revert n.
  induction Hall as [|[fields eol] recs [(_ & Hne & _) _] _ IH]; intros n.
  - reflexivity.
  - cbn [numbered fst]. rewrite filter_cons_True.
    + by rewrite IH.
    + unfold csv.is_blank_record. simpl. by destruct fields.
Qed.

Lemma rows_of_numbered self (header : list string)
    (rows : list (list string * string)) ix iy iz (points : list bpy.Vector)
    n start :
  NoDup header ->
  header !! ix = Some (x_column_name self) ->
  header !! iy = Some (y_column_name self) ->
  header !! iz = Some (z_column_name self) ->
  Forall2 (row_gives ix iy iz) rows points ->
  let dicts :=
    map (fun rec : csv.record => (fst rec, csv.make_row header (snd rec)))
        (numbered n rows) in
  spec_points self dicts = points
  /\ omap (skipped_of self) (enumerate dicts start) = [].
Proof.
  intros Hnd Hix Hiy Hiz Hrows. revert n start.
  induction Hrows as [|[fields eol] [[x y] z] rows points (Hx & Hy & Hz) _ IH];
    intros n start; [by split|].
  destruct (IH (S n) (S start)) as [IHp IHs].
  assert (Hpoint : spec_row_point self (csv.make_row header fields)
                   = Some (x, y, z)).
  { apply spec_row_point_parses; by eapply parses_to_of_field. }
  cbn [numbered map fst snd]. split.
  - unfold spec_points in *. cbn. rewrite Hpoint. by rewrite IHp.
  - rewrite skipped_of_cons. cbn [snd]. rewrite Hpoint. exact IHs.
Qed.

Lemma read_file_well_formed self fs (header : list string) eol
    (rows : list (list string * string)) ix iy iz
    (points : list bpy.Vector) :
  fs (filepath self) = opened (text_lines ((header, eol) :: rows)) None ->
  writable header ->
  blank_line eol = true ->
  NoDup header ->
  header !! ix = Some (x_column_name self) ->
  header !! iy = Some (y_column_name self) ->
  header !! iz = Some (z_column_name self) ->
  Forall (fun re => writable (fst re) /\ blank_line (snd re) = true) rows ->
  Forall2 (row_gives ix iy iz) rows points ->
  read_file self fs initial
  = (Ok tt, {| verts := points; skipped_lines := [] |}).
Proof.
  intros Hfs Hw Heol Hnd Hix Hiy Hiz Hall Hrows.
  rewrite (read_file_opened _ _ _ _ Hfs).
  assert (Hreader : csv.reader (text_lines ((header, eol) :: rows)) None
                    = (numbered 1 ((header, eol) :: rows), None)).
  { apply reader_from_text_lines. by constructor. }
  unfold csv.DictReader. rewrite Hreader.
  cbn [fst snd numbered csv.DictReader_rows].
  rewrite (filter_numbered_writable rows 2 Hall).
  destruct (rows_of_numbered self header rows ix iy iz points 2 2
              Hnd Hix Hiy Hiz Hrows) as [Hp Hs].
  refine (eq_trans _
            (f_equal2 (fun a b => (Ok tt, {| verts := a; skipped_lines := b |}))
               Hp Hs)).
  reflexivity.
Qed.

(** X10: a well-formed file is imported whole.  When the header is a line
    of plain, distinct names among which are the three configured ones,
    and every other line is a record of plain fields whose fields under
    those names parse, the Points are those of the lines, in order, no
    line is skipped, and [execute] finishes, links the mesh of these
    Points (and their labels when asked for) and reports that all rows
    were imported. *)
Theorem X10_well_formed_file_is_imported_whole
    self fs (header : list string) eol (rows : list (list string * string))
    ix iy iz (points : list bpy.Vector) :
  fs (filepath self) = opened (text_lines ((header, eol) :: rows)) None ->
  writable header ->
  blank_line eol = true ->
  NoDup header ->
  header !! ix = Some (x_column_name self) ->
  header !! iy = Some (y_column_name self) ->
  header !! iz = Some (z_column_name self) ->
  Forall (fun re => writable (fst re) /\ blank_line (snd re) = true) rows ->
  Forall2 (row_gives ix iy iz) rows points ->
  read_file self fs initial
  = (Ok tt, {| verts := points; skipped_lines := [] |})
  /\ (rows <> [] ->
      forall context,
        execute self fs context =
          (bpy.FINISHED,
           {| bpy.collection_objects :=
                bpy.collection_objects context
                ++ mesh_object points
                :: (if show_labels self
                    then imap (fun i => label_of self i) points else []);
              bpy.reports :=
                bpy.reports context
                ++ [(bpy.INFO, all_imported_message (length rows))] |})).
Proof.
  intros Hfs Hw Heol Hnd Hix Hiy Hiz Hall Hrows.
  pose proof (read_file_well_formed self fs header eol rows ix iy iz points
                Hfs Hw Heol Hnd Hix Hiy Hiz Hall Hrows) as Hread.
  split; [exact Hread|].
  intros Hne context.
  pose proof (Forall2_length _ _ _ Hrows) as Hlen.
  assert (Hpoints : points <> []).
  { intros ->. destruct rows; [done|discriminate]. }
  rewrite (execute_finished_value _ _ _ _ Hread Hpoints).
  cbn [verts skipped_lines length]. rewrite Nat.add_0_r, <- Hlen.
  reflexivity.
Qed.

(** * A field beyond the reader's limit *)

Lemma fresh_after_records pre r1 :
  reader_after csv.new_reader pre = Ok r1 ->
  csv.state r1 = csv.START_RECORD ->
  r1 = csv.Build_ReaderObj [] [] 0 csv.START_RECORD (csv.line_num r1).
Proof.
  intros Hafter Hst. destruct pre as [|line pre].
  - simpl in Hafter. by injection Hafter as <-.
  - destruct (reader_from_app _ _ _ Hafter) as (recs & _ & Hfresh).
    destruct (Hfresh ltac:(done) Hst) as [_ Hr1]. exact Hr1.
Qed.

Lemma process_line_overlong line n :
  overlong_line line ->
  csv.process_line (csv.Build_ReaderObj [] [] 0 csv.START_RECORD n) line
  = Raise field_limit_error.
Proof.
  intros (cs & tail & Hline & Hplain & Hlong).
  unfold csv.process_line. simpl. rewrite Hline.
  rewrite process_overlong_chars; [reflexivity|exact Hplain|by left| |];
    unfold csv.field_limit in *; lia.
Qed.

Lemma reader_overlong_line pre line post input_end :
  between_records pre ->
  overlong_line line ->
  snd (csv.reader (pre ++ line :: post) input_end) = Some field_limit_error.
Proof.
  intros (r1 & Hafter & Hst) Hlong.
  destruct (reader_from_app _ _ _ Hafter) as (recs & Hrecs & _).
  unfold csv.reader. rewrite Hrecs. cbn [snd].
  rewrite (fresh_after_records _ _ Hafter Hst).
  cbn [csv.reader_from]. by rewrite (process_line_overlong _ _ Hlong).
Qed.

(** X11: a field of more than 131072 characters fails the whole import.
    When a line that begins such a field follows lines that end where a
    record ends, the reader raises its field-limit error, and [execute]
    reports the read failure with that text, returns [CANCELLED] and links
    nothing, whatever the other lines hold. *)
Theorem X11_overlong_field_fails_the_import
    self fs (pre : list string) line (post : list string) input_end :
  fs (filepath self) = opened (pre ++ line :: post) input_end ->
  between_records pre ->
  overlong_line line ->
  forall context,
    execute self fs context
    = (bpy.CANCELLED,
       bpy.report bpy.ERROR (io_failure_message field_limit_error) context).
Proof.
  intros Hfs Hpre Hlong context.
  pose proof (read_file_opened self fs _ _ Hfs) as Hread.
  rewrite (reader_overlong_line pre line post input_end Hpre Hlong) in Hread.
  by rewrite (execute_io_failure _ _ _ _ _ Hread).
Qed.

(** * A file of blank lines *)

Lemma reader_from_blank_lines lines n :
  Forall (fun line => blank_line line = true) lines ->
  let s := csv.reader_from (csv.Build_ReaderObj [] [] 0 csv.START_RECORD n)
             lines None in
  Forall (fun rec => csv.is_blank_record rec = true) (fst s) /\ snd s = None.
Proof.
  intros Hall. revert n.
  induction Hall as [|line lines Hline _ IH]; intros n.
  - split; [constructor|reflexivity].
  - cbn [csv.reader_from].
    rewrite (process_line_blank
               (csv.Build_ReaderObj [] [] 0 csv.START_RECORD n) line Hline
               eq_refl).
    cbn. destruct (IH (S n)) as [IH1 IH2]. split; [|exact IH2].
    constructor; [reflexivity|exact IH1].
Qed.

Lemma DictReader_rows_blank (recs : list csv.record) :
  Forall (fun rec => csv.is_blank_record rec = true) recs ->
  csv.DictReader_rows recs = [].
Proof.
  intros Hall. destruct recs as [|hdr rest]; [reflexivity|].
  apply Forall_cons in Hall as [_ Hrest]. simpl.
  induction Hrest as [|rec rest Hrec _ IH]; [reflexivity|].
  rewrite filter_cons_False; [exact IH|]. by rewrite Hrec.
Qed.

(** X12: a file that is empty or made of blank lines only has no data
    row: the scan ends without exception and with both lists empty, and
    [execute] reports that no valid point was found. *)
Theorem X12_blank_file_has_no_points self fs lines :
  fs (filepath self) = opened lines None ->
  Forall (fun line => blank_line line = true) lines ->
  read_file self fs initial = (Ok tt, initial)
  /\ forall context,
       execute self fs context
       = (bpy.CANCELLED,
          bpy.report bpy.ERROR no_valid_points_message context).
Proof.
  intros Hfs Hall.
  destruct (reader_from_blank_lines lines 0 Hall) as [Hblank Hend].
  change (csv.reader_from (csv.Build_ReaderObj [] [] 0 csv.START_RECORD 0)
            lines None)
    with (csv.reader lines None) in Hblank, Hend.
  assert (Hread : read_file self fs initial = (Ok tt, initial)).
  { rewrite (read_file_opened _ _ _ _ Hfs). unfold csv.DictReader.
    cbn [fst snd]. rewrite Hend.
    by rewrite (DictReader_rows_blank _ Hblank). }
  split; [exact Hread|]. intros context.
  by apply (execute_no_valid_points _ _ _ _ Hread).
Qed.

(** * Instances of the further properties *)

Lemma overlong_repeated c n :
  plain_char c = true ->
  (csv.field_limit < N.of_nat n)%N ->
  overlong_line (repeated c n).
Proof.
  intros Hc Hn. exists (repeat c n), []. unfold repeated.
  rewrite list_ascii_of_string_of_list_ascii, app_nil_r, repeat_length.
  split; [reflexivity|]. split; [|exact Hn].
  clear Hn. induction n as [|n IH]; simpl; [reflexivity|].
  by rewrite Hc, IH.
Qed.

Lemma plain_fields_of_numbers :
  Forall plain_field ["4"; "5"; "6"]
  /\ Forall plain_field ["1.0"; "2.0"; "3.0"]
  /\ Forall plain_field disto_header.
Proof.
  repeat split; repeat constructor; vm_compute; congruence.
Qed.

Lemma disto_records_writable :
  Forall (fun re => writable (fst re) /\ blank_line (snd re) = true)
    disto_records.
Proof.
  destruct plain_fields_of_numbers as (H456 & H123 & Hheader).
  repeat constructor; try assumption; try discriminate.
Qed.

Lemma disto_header_NoDup : NoDup disto_header.
Proof.
  repeat constructor; intros H;
    repeat (apply elem_of_cons in H as [H|H]; [discriminate|]);
    by apply elem_of_nil in H.
Qed.

Lemma X3_instance :
  one_file empty_field_then_good_row "survey.csv"
  = opened empty_field_then_good_row None
  /\ fst (execute (disto_operator "survey.csv")
            (one_file empty_field_then_good_row) empty_host) = bpy.FINISHED
  /\ bpy.reports
       (snd (execute (disto_operator "survey.csv")
               (one_file empty_field_then_good_row) empty_host))
     = [(bpy.INFO, "Imported 1 points from 2 lines. Skipped lines: [2]")].
Proof.
  assert (H1 : one_file empty_field_then_good_row
                 (filepath (disto_operator "survey.csv"))
               = opened empty_field_then_good_row None) by reflexivity.
  assert (H2 : fst (execute (disto_operator "survey.csv")
                      (one_file empty_field_then_good_row) empty_host)
               = bpy.FINISHED) by (vm_compute; reflexivity).
  split; [exact H1|]. split; [exact H2|].
  rewrite (X3_summary_counts_points_and_rows _ _ _ _ empty_host H1 H2).
  vm_compute. reflexivity.
Defined.

Lemma X4_instance :
  one_file two_good_rows "survey.csv" = opened two_good_rows None
  /\ fst (csv.reader two_good_rows None)
     = (1, disto_header)
       :: [(2, ["1.0"; "2.0"; "3.0"]); (3, ["4"; "5"; "6"])]
  /\ (x_column_name (easting_operator "survey.csv") ∉ disto_header)
  /\ skipped_lines
       (snd (read_file (easting_operator "survey.csv")
               (one_file two_good_rows) initial))
     = seq 2 (length (fst (csv.DictReader two_good_rows None))).
Proof.
  assert (H1 : one_file two_good_rows
                 (filepath (easting_operator "survey.csv"))
               = opened two_good_rows None) by reflexivity.
  assert (H2 : fst (csv.reader two_good_rows None)
               = (1, disto_header)
                 :: [(2, ["1.0"; "2.0"; "3.0"]); (3, ["4"; "5"; "6"])])
    by (vm_compute; reflexivity).
  assert (H3 : x_column_name (easting_operator "survey.csv") ∉ disto_header).
  { intros H. repeat (apply elem_of_cons in H as [H|H]; [discriminate|]).
    by apply elem_of_nil in H. }
  split; [exact H1|]. split; [exact H2|]. split; [exact H3|].
  exact (proj1 (proj2 (X4_column_missing_from_header _ _ _ _ _ _ _
                         H1 H2 (or_introl H3)))).
Defined.

Lemma X5_instance :
  field_parses ["4"; "5"; "6"] 0 four
  /\ field_parses ["4"; "5"; "6"] 1 five
  /\ field_parses ["4"; "5"; "6"] 2 six
  /\ loop_body (disto_operator "survey.csv") 2
       (csv.make_row disto_header ["4"; "5"; "6"]) initial
     = (Ok tt, push_point (four, five, six) initial).
Proof.
  assert (Hx : field_parses ["4"; "5"; "6"] 0 four).
  { exists "4". split; [reflexivity|]. split; [discriminate|].
    vm_compute. reflexivity. }
  assert (Hy : field_parses ["4"; "5"; "6"] 1 five).
  { exists "5". split; [reflexivity|]. split; [discriminate|].
    vm_compute. reflexivity. }
  assert (Hz : field_parses ["4"; "5"; "6"] 2 six).
  { exists "6". split; [reflexivity|]. split; [discriminate|].
    vm_compute. reflexivity. }
  split; [exact Hx|]. split; [exact Hy|]. split; [exact Hz|].
  exact (X5_record_with_three_numbers_gives_point
           (disto_operator "survey.csv") 2 disto_header ["4"; "5"; "6"]
           0 1 2 four five six initial
           disto_header_NoDup eq_refl eq_refl eq_refl Hx Hy Hz).
Defined.

Lemma X6_instance :
  "Z [m]" ∈ drop (length ["1"; "2"]) disto_header
  /\ loop_body (disto_operator "survey.csv") 2
       (csv.make_row disto_header ["1"; "2"]) initial
     = (Ok tt, push_skipped 2 initial).
Proof.
  assert (H : "Z [m]" ∈ drop (length ["1"; "2"]) disto_header)
    by apply list_elem_of_here.
  split; [exact H|].
  exact (X6_short_record_is_skipped (disto_operator "survey.csv") 2
           disto_header ["1"; "2"] "Z [m]" initial
           (or_intror (or_intror eq_refl)) H).
Defined.

Lemma X7_instance :
  length disto_header <= length ["4"; "5"; "6"]
  /\ loop_body (disto_operator "survey.csv") 2
       (csv.make_row disto_header (["4"; "5"; "6"] ++ ["note"; "7"]))
     = loop_body (disto_operator "survey.csv") 2
         (csv.make_row disto_header ["4"; "5"; "6"]).
Proof.
  assert (H : length disto_header <= length ["4"; "5"; "6"]) by (simpl; lia).
  split; [exact H|].
  exact (X7_fields_beyond_header_are_ignored (disto_operator "survey.csv") 2
           disto_header ["4"; "5"; "6"] ["note"; "7"] H).
Defined.

Lemma X8_instance :
  Forall2 padded ["4"; "5"; "6"] [" 4"; "5 "; " 6 "]
  /\ loop_body (disto_operator "survey.csv") 2
       (csv.make_row disto_header [" 4"; "5 "; " 6 "]) initial
     = loop_body (disto_operator "survey.csv") 2
         (csv.make_row disto_header ["4"; "5"; "6"]) initial.
Proof.
  assert (H : Forall2 padded ["4"; "5"; "6"] [" 4"; "5 "; " 6 "]).
  { repeat constructor.
    - exists " ", "". repeat split.
    - exists "", " ". repeat split.
    - exists " ", " ". repeat split. }
  split; [exact H|].
  exact (X8_white_space_around_fields_is_ignored
           (disto_operator "survey.csv") 2 disto_header
           ["4"; "5"; "6"] [" 4"; "5 "; " 6 "] initial H).
Defined.

Lemma X9_instance :
  csv.reader (text_lines disto_records) None
  = ([(1, disto_header); (2, ["1.0"; "2.0"; "3.0"]); (3, ["4"; "5"; "6"])],
     None).
Proof.
  exact (X9_reader_gives_back_plain_records disto_records
           disto_records_writable).
Defined.

Lemma X10_instance :
  read_file (disto_operator "survey.csv")
    (one_file (text_lines disto_records)) initial
  = (Ok tt, {| verts := [(bpy.one, two, three); (four, five, six)];
               skipped_lines := [] |}).
Proof.
  destruct plain_fields_of_numbers as (H456 & H123 & Hheader).
  refine (proj1 (X10_well_formed_file_is_imported_whole
                   (disto_operator "survey.csv")
                   (one_file (text_lines disto_records))
                   disto_header crlf
                   [(["1.0"; "2.0"; "3.0"], crlf); (["4"; "5"; "6"], "")]
                   0 1 2 [(bpy.one, two, three); (four, five, six)]
                   eq_refl _ eq_refl disto_header_NoDup
                   eq_refl eq_refl eq_refl _ _)).
  - split; [exact Hheader|]. split; discriminate.
  - repeat constructor; try assumption; discriminate.
  - repeat constructor;
      (eexists; split; [reflexivity|]; split; [discriminate|];
       vm_compute; reflexivity).
Defined.

Lemma X11_instance :
  execute (disto_operator "survey.csv")
    (one_file [header_line; long_field]) empty_host
  = (bpy.CANCELLED,
     bpy.report bpy.ERROR
       "Failed to read CSV: field larger than field limit (131072)"
       empty_host).
Proof.
  refine (X11_overlong_field_fails_the_import
            (disto_operator "survey.csv")
            (one_file [header_line; long_field])
            [header_line] long_field [] None eq_refl _ _ empty_host).
  - eexists. split; vm_compute; reflexivity.
  - apply overlong_repeated; [reflexivity|].
    rewrite N2Nat.id. reflexivity.
Defined.

Lemma X12_instance :
  execute (disto_operator "survey.csv") (one_file [ln ""; crlf]) empty_host
  = (bpy.CANCELLED,
     bpy.report bpy.ERROR no_valid_points_message empty_host).
Proof.
  refine (proj2 (X12_blank_file_has_no_points (disto_operator "survey.csv")
                   (one_file [ln ""; crlf]) [ln ""; crlf] eq_refl _)
            empty_host).
  repeat constructor.
Defined.
